(** * hera-workflows: environment specifications and the Workflow builder

    A shallow embedding of [src/hera/env.py] and [src/hera/workflow.py].

    Python strings are sequences of Unicode code points ([list N]); Python
    objects of type [Any] are values of [PyVal]; an exception is a value of
    [exn] carried by [result].  The [json] module of the Python standard
    library, which [EnvSpec.build] calls, is embedded in [Module Json]. *)

From Stdlib Require Import ZArith NArith List String Ascii Lia.
From Stdlib Require Import Decimal DecimalFacts DecimalPos DecimalN.
From stdpp Require Import base option list strings gmap functions.

Local Open Scope string_scope.
Local Open Scope list_scope.

(** ** Python strings, exceptions, results *)

(** A Python [str]: its code points, each below [0x110000]. *)
Abbreviation pystr := (list N).

(** The code points of an ASCII literal of the source. *)
Definition py (s : string) : pystr :=
  map N_of_ascii (list_ascii_of_string s).

(** The same for a literal that holds double quotes, written here with
    single quotes in their place. *)
Definition dq (s : string) : pystr :=
  map (fun c => if (c =? 39)%N then 34%N else c) (py s).

(** The exception classes the two source files can raise, and the
    [ApiTypeError] with which a model class of [argo_workflows] refuses a
    keyword of the wrong type (its text is not modelled). *)
Inductive exn : Type :=
| TypeError (msg : pystr)
| ValueError (msg : pystr)
| KeyError (msg : pystr)
| AssertionError
| ApiTypeError.

Inductive result (A : Type) : Type :=
| Ok (a : A)
| Raise (e : exn).
Arguments Ok {A} a.
Arguments Raise {A} e.

Definition rbind {A B} (r : result A) (k : A -> result B) : result B :=
  match r with
  | Ok a => k a
  | Raise e => Raise e
  end.

Global Instance result_ret : MRet result := fun A a => Ok a.
Global Instance result_bind : MBind result := fun A B k r => rbind r k.

(** The spec's error taxonomy, read on the exceptions the code raises:
    a value that [json.dumps] cannot encode surfaces as its [TypeError];
    an illegal ordering of Workflow operations is a [ValueError]. *)
Definition SerializationError (e : exn) : Prop :=
  match e with TypeError _ => True | _ => False end.

Definition InvalidStateError (e : exn) : Prop :=
  match e with ValueError _ => True | _ => False end.

(** ** Python values *)

(** The values an [Optional[Any]] field can hold, as far as [json.dumps]
    tells them apart.  A [dict] is its insertion-ordered item list; [set]
    and [bytes] stand for the objects [json] has no encoding for.  Floats
    are outside the model. *)
#[local] Unset Elimination Schemes.
Inductive PyVal : Type :=
| PyNone
| PyBool (b : bool)
| PyInt (z : Z)
| PyStr (s : pystr)
| PyList (l : list PyVal)
| PyTuple (l : list PyVal)
| PyDict (items : list (PyVal * PyVal))
| PySet (l : list PyVal)
| PyBytes (b : list N).
#[local] Set Elimination Schemes.

(** [type(o).__name__] *)
Definition class_name (o : PyVal) : pystr :=
  match o with
  | PyNone => py "NoneType"
  | PyBool _ => py "bool"
  | PyInt _ => py "int"
  | PyStr _ => py "str"
  | PyList _ => py "list"
  | PyTuple _ => py "tuple"
  | PyDict _ => py "dict"
  | PySet _ => py "set"
  | PyBytes _ => py "bytes"
  end.

(** Sequential evaluation of [f] over a list, stopping at the first
    exception, as a generator consumed by [''.join] does. *)
Definition traverse {A B} (f : A -> result B) : list A -> result (list B) :=
  fix go (l : list A) : result (list B) :=
    match l with
    | [] => Ok []
    | x :: r =>
        match f x with
        | Ok y => match go r with Ok ys => Ok (y :: ys) | Raise e => Raise e end
        | Raise e => Raise e
        end
    end.

(** [sep.join(parts)] *)
Fixpoint join (sep : pystr) (parts : list pystr) : pystr :=
  match parts with
  | [] => []
  | [p] => p
  | p :: ps => p ++ sep ++ join sep ps
  end.

Definition list_eqb {A} (eqb : A -> A -> bool) : list A -> list A -> bool :=
  fix go (l m : list A) : bool :=
    match l, m with
    | [], [] => true
    | x :: l', y :: m' => eqb x y && go l' m'
    | _, _ => false
    end.

(** Python's [a == b] on these values.  [bool] is a subclass of [int]
    ([True == 1]); a list never equals a tuple; dicts compare by their
    items whatever the insertion order; sets by mutual inclusion. *)
Fixpoint py_eqb (a b : PyVal) {struct a} : bool :=
  match a, b with
  | PyNone, PyNone => true
  | PyBool x, PyBool y => Bool.eqb x y
  | PyBool x, PyInt z => (Z.b2z x =? z)%Z
  | PyInt z, PyBool y => (z =? Z.b2z y)%Z
  | PyInt z, PyInt z' => (z =? z')%Z
  | PyStr s, PyStr t => bool_decide (s = t)
  | PyList l, PyList m => list_eqb py_eqb l m
  | PyTuple l, PyTuple m => list_eqb py_eqb l m
  | PyDict d, PyDict e =>
      (length d =? length e)%nat &&
      forallb (fun kv =>
                 match find (fun kv' => py_eqb (fst kv) (fst kv')) e with
                 | Some kv' => py_eqb (snd kv) (snd kv')
                 | None => false
                 end) d
  | PySet l, PySet m =>
      forallb (fun x => existsb (fun y => py_eqb x y) m) l &&
      forallb (fun y => existsb (fun x => py_eqb x y) l) m
  | PyBytes x, PyBytes y => bool_decide (x = y)
  | _, _ => false
  end.

(** [d[k] = v] on the item list of a dict: an existing key keeps its place
    and its key object, a new key goes last. *)
Fixpoint dict_set (d : list (PyVal * PyVal)) (k v : PyVal) : list (PyVal * PyVal) :=
  match d with
  | [] => [(k, v)]
  | (k', v') :: r => if py_eqb k' k then (k', v) :: r else (k', v') :: dict_set r k v
  end.

(** [dict(pairs)] *)
Definition dict_of_pairs (pairs : list (PyVal * PyVal)) : list (PyVal * PyVal) :=
  fold_left (fun d kv => dict_set d (fst kv) (snd kv)) pairs [].

(** ** The [json] module of the standard library *)

Module Json.

(** *** Encoding: [json.dumps(obj)] with its default arguments
    ([ensure_ascii=True], separators [', '] and [': '], [skipkeys=False],
    no [default] hook).  The limits of the interpreter (recursion depth,
    the digit limit of the conversion of integers to text) are not part of
    the model. *)

Definition hex_digit (d : N) : N :=
  (if d <? 10 then 48 + d else 87 + d)%N.

(** ['{0:04x}'.format(n)] for [n < 0x10000] *)
Definition hex4 (n : N) : pystr :=
  [hex_digit (N.shiftr n 12 mod 16); hex_digit (N.shiftr n 8 mod 16);
   hex_digit (N.shiftr n 4 mod 16); hex_digit (n mod 16)]%N.

Definition u_escape (n : N) : pystr := [92; 117]%N ++ hex4 n.

(** The [replace] callback of [py_encode_basestring_ascii]: applied to each
    character matched by [ESCAPE_ASCII], that is to the backslash, the
    double quote and everything outside [' '..'~']. *)
Definition escape_char (c : N) : pystr :=
  (if c =? 92 then py "\\"
   else if c =? 34 then [92; 34]
   else if c =? 8 then py "\b"
   else if c =? 12 then py "\f"
   else if c =? 10 then py "\n"
   else if c =? 13 then py "\r"
   else if c =? 9 then py "\t"
   else if (32 <=? c) && (c <=? 126) then [c]
   else if c <? 0x10000 then u_escape c
   else
     let n := c - 0x10000 in
     let s1 := N.lor 0xd800 (N.land (N.shiftr n 10) 0x3ff) in
     let s2 := N.lor 0xdc00 (N.land n 0x3ff) in
     u_escape s1 ++ u_escape s2)%N.

Definition encode_basestring_ascii (s : pystr) : pystr :=
  [34%N] ++ flat_map escape_char s ++ [34%N].

Definition digit_char (d : N) : N := (48 + d)%N.

Fixpoint uint_chars (u : Decimal.uint) : pystr :=
  match u with
  | Nil => []
  | D0 u' => digit_char 0 :: uint_chars u'
  | D1 u' => digit_char 1 :: uint_chars u'
  | D2 u' => digit_char 2 :: uint_chars u'
  | D3 u' => digit_char 3 :: uint_chars u'
  | D4 u' => digit_char 4 :: uint_chars u'
  | D5 u' => digit_char 5 :: uint_chars u'
  | D6 u' => digit_char 6 :: uint_chars u'
  | D7 u' => digit_char 7 :: uint_chars u'
  | D8 u' => digit_char 8 :: uint_chars u'
  | D9 u' => digit_char 9 :: uint_chars u'
  end.

(** [int.__repr__] *)
Definition int_repr (z : Z) : pystr :=
  (if (z <? 0)%Z then [45%N] else []) ++ uint_chars (N.to_uint (Z.abs_N z)).

(** The key conversion of [_iterencode_dict]. *)
Definition key_string (k : PyVal) : result pystr :=
  match k with
  | PyStr s => Ok s
  | PyBool true => Ok (py "true")
  | PyBool false => Ok (py "false")
  | PyNone => Ok (py "null")
  | PyInt z => Ok (int_repr z)
  | _ => Raise (TypeError (py "keys must be str, int, float, bool or None, not "
                             ++ class_name k))
  end.

(** [_iterencode], with its chunks already joined. *)
Fixpoint encode (o : PyVal) : result pystr :=
  match o with
  | PyStr s => Ok (encode_basestring_ascii s)
  | PyNone => Ok (py "null")
  | PyBool true => Ok (py "true")
  | PyBool false => Ok (py "false")
  | PyInt z => Ok (int_repr z)
  | PyList l | PyTuple l =>
      match traverse encode l with
      | Ok chunks => Ok (py "[" ++ join (py ", ") chunks ++ py "]")
      | Raise e => Raise e
      end
  | PyDict items =>
      match traverse (fun kv =>
                        match key_string (fst kv) with
                        | Ok k =>
                            match encode (snd kv) with
                            | Ok v => Ok (encode_basestring_ascii k ++ py ": " ++ v)
                            | Raise e => Raise e
                            end
                        | Raise e => Raise e
                        end) items with
      | Ok chunks => Ok (py "{" ++ join (py ", ") chunks ++ py "}")
      | Raise e => Raise e
      end
  | PySet _ | PyBytes _ =>
      Raise (TypeError (py "Object of type " ++ class_name o
                          ++ py " is not JSON serializable"))
  end.

Definition dumps (obj : PyVal) : result pystr := encode obj.

(** *** Decoding: [json.loads(s)] with its default arguments (strict mode,
    no hooks).  The scanner works on the characters still to read instead
    of on an index into the text; [None] stands for [JSONDecodeError], and
    for a number with a fraction or an exponent, a NaN or an Infinity,
    which would decode to a float. *)

Definition is_ws (c : N) : bool :=
  ((c =? 32) || (c =? 9) || (c =? 10) || (c =? 13))%N.

(** [WHITESPACE.match(s, end).end()] *)
Fixpoint skip_ws (s : pystr) : pystr :=
  match s with
  | c :: r => if is_ws c then skip_ws r else s
  | [] => []
  end.

Definition is_digit (c : N) : bool := ((48 <=? c) && (c <=? 57))%N.

Definition hex_value (c : N) : option N :=
  (if (48 <=? c) && (c <=? 57) then Some (c - 48)
   else if (97 <=? c) && (c <=? 102) then Some (c - 87)
   else if (65 <=? c) && (c <=? 70) then Some (c - 55)
   else None)%N.

(** [_decode_uXXXX]: the four hexadecimal digits after [\u]. *)
Definition decode_uXXXX (s : pystr) : option (N * pystr) :=
  match s with
  | a :: b :: c :: d :: r =>
      match hex_value a, hex_value b, hex_value c, hex_value d with
      | Some x3, Some x2, Some x1, Some x0 =>
          Some (x3 * 4096 + x2 * 256 + x1 * 16 + x0, r)%N
      | _, _, _, _ => None
      end
  | _ => None
  end.

(** The [BACKSLASH] table. *)
Definition backslash (esc : N) : option N :=
  (if esc =? 34 then Some 34
   else if esc =? 92 then Some 92
   else if esc =? 47 then Some 47
   else if esc =? 98 then Some 8
   else if esc =? 102 then Some 12
   else if esc =? 110 then Some 10
   else if esc =? 114 then Some 13
   else if esc =? 116 then Some 9
   else None)%N.

Definition is_high_surrogate (c : N) : bool := ((0xd800 <=? c) && (c <=? 0xdbff))%N.
Definition is_low_surrogate (c : N) : bool := ((0xdc00 <=? c) && (c <=? 0xdfff))%N.

(** [s.startswith(p)], with what follows the prefix. *)
Fixpoint strip_prefix (p s : pystr) : option pystr :=
  match p, s with
  | [], _ => Some s
  | a :: p', b :: s' => if (a =? b)%N then strip_prefix p' s' else None
  | _ :: _, [] => None
  end.

(** The tail of the [\uXXXX] case of [scanstring]: a high surrogate
    directly followed by an escaped low surrogate is one character. *)
Definition join_surrogates (uni : N) (s : pystr) : option (N * pystr) :=
  if is_high_surrogate uni then
    match strip_prefix (py "\u") s with
    | Some s' =>
        match decode_uXXXX s' with
        | Some (uni2, s'') =>
            if is_low_surrogate uni2 then
              Some (0x10000 + N.lor (N.shiftl (uni - 0xd800) 10) (uni2 - 0xdc00), s'')%N
            else Some (uni, s)
        | None => None
        end
    | None => Some (uni, s)
    end
  else Some (uni, s).

(** [scanstring(s, end)], called after the opening quote: the decoded
    string and what follows the closing quote. *)
Fixpoint scanstring (fuel : nat) (s : pystr) : option (pystr * pystr) :=
  match fuel with
  | O => None
  | S fuel' =>
      match s with
      | [] => None
      | c :: r =>
          if (c =? 34)%N then Some ([], r)
          else if (c =? 92)%N then
            match r with
            | [] => None
            | esc :: r1 =>
                if (esc =? 117)%N then
                  match decode_uXXXX r1 with
                  | Some (uni, r2) =>
                      match join_surrogates uni r2 with
                      | Some (char, r3) =>
                          match scanstring fuel' r3 with
                          | Some (str, r4) => Some (char :: str, r4)
                          | None => None
                          end
                      | None => None
                      end
                  | None => None
                  end
                else
                  match backslash esc with
                  | Some char =>
                      match scanstring fuel' r1 with
                      | Some (str, r2) => Some (char :: str, r2)
                      | None => None
                      end
                  | None => None
                  end
            end
          else if (c <? 32)%N then None
          else
            match scanstring fuel' r with
            | Some (str, r') => Some (c :: str, r')
            | None => None
            end
      end
  end.

Definition digit_cons (c : N) (u : Decimal.uint) : Decimal.uint :=
  (if c =? 48 then D0 u else if c =? 49 then D1 u else if c =? 50 then D2 u
   else if c =? 51 then D3 u else if c =? 52 then D4 u else if c =? 53 then D5 u
   else if c =? 54 then D6 u else if c =? 55 then D7 u else if c =? 56 then D8 u
   else D9 u)%N.

(** The longest run of digits at the head of [s]. *)
Fixpoint take_digits (s : pystr) : Decimal.uint * pystr :=
  match s with
  | c :: r =>
      if is_digit c then
        let '(u, r') := take_digits r in (digit_cons c u, r')
      else (Nil, s)
  | [] => (Nil, [])
  end.

(** Does [(\.\d+)] match at the head of [s]? *)
Definition has_frac (s : pystr) : bool :=
  match s with
  | c :: d :: _ => (c =? 46)%N && is_digit d
  | _ => false
  end.

(** Does [([eE][-+]?\d+)] match at the head of [s]? *)
Definition has_exp (s : pystr) : bool :=
  match s with
  | c :: r =>
      ((c =? 101) || (c =? 69))%N &&
      match r with
      | d :: r' =>
          if ((d =? 43) || (d =? 45))%N then
            match r' with d' :: _ => is_digit d' | [] => false end
          else is_digit d
      | [] => false
      end
  | [] => false
  end.

(** [NUMBER_RE.match] and the conversion of an integer literal: an optional
    minus sign, then either a single 0 or a nonzero digit and the digits
    after it, not followed by a fraction or an exponent. *)
Definition scan_number (s : pystr) : option (PyVal * pystr) :=
  let '(neg, s1) := match s with
                    | c :: r => if (c =? 45)%N then (true, r) else (false, s)
                    | [] => (false, s)
                    end in
  match s1 with
  | c :: r =>
      if is_digit c then
        let '(u, rest) := if (c =? 48)%N then (D0 Nil, r) else take_digits s1 in
        if has_frac rest || has_exp rest then None
        else
          let n := Z.of_N (N.of_uint u) in
          Some (PyInt (if neg then Z.opp n else n), rest)
      else None
  | [] => None
  end.

(** The loop of [JSONArray], entered at the first value. *)
Fixpoint array_loop (scan : pystr -> option (PyVal * pystr)) (n : nat) (s : pystr)
  : option (list PyVal * pystr) :=
  match n with
  | O => None
  | S n' =>
      match scan s with
      | Some (value, s1) =>
          match skip_ws s1 with
          | c :: r =>
              if (c =? 93)%N then Some ([value], r)
              else if (c =? 44)%N then
                match array_loop scan n' (skip_ws r) with
                | Some (values, r') => Some (value :: values, r')
                | None => None
                end
              else None
          | [] => None
          end
      | None => None
      end
  end.

Definition JSONArray (scan : pystr -> option (PyVal * pystr)) (n : nat) (s : pystr)
  : option (PyVal * pystr) :=
  match skip_ws s with
  | c :: r =>
      if (c =? 93)%N then Some (PyList [], r)
      else
        match array_loop scan n (c :: r) with
        | Some (values, r') => Some (PyList values, r')
        | None => None
        end
  | [] => None
  end.

(** The loop of [JSONObject], entered after the opening quote of a key. *)
Fixpoint object_loop (scan : pystr -> option (PyVal * pystr)) (n : nat) (s : pystr)
  : option (list (PyVal * PyVal) * pystr) :=
  match n with
  | O => None
  | S n' =>
      match scanstring (length s) s with
      | Some (key, s1) =>
          match skip_ws s1 with
          | c :: s2 =>
              if (c =? 58)%N then
                match scan (skip_ws s2) with
                | Some (value, s3) =>
                    match skip_ws s3 with
                    | c' :: r =>
                        if (c' =? 125)%N then Some ([(PyStr key, value)], r)
                        else if (c' =? 44)%N then
                          match skip_ws r with
                          | q :: r' =>
                              if (q =? 34)%N then
                                match object_loop scan n' r' with
                                | Some (pairs, r'') => Some ((PyStr key, value) :: pairs, r'')
                                | None => None
                                end
                              else None
                          | [] => None
                          end
                        else None
                    | [] => None
                    end
                | None => None
                end
              else None
          | [] => None
          end
      | None => None
      end
  end.

Definition JSONObject (scan : pystr -> option (PyVal * pystr)) (n : nat) (s : pystr)
  : option (PyVal * pystr) :=
  match skip_ws s with
  | c :: r =>
      if (c =? 125)%N then Some (PyDict [], r)
      else if (c =? 34)%N then
        match object_loop scan n r with
        | Some (pairs, r') => Some (PyDict (dict_of_pairs pairs), r')
        | None => None
        end
      else None
  | [] => None
  end.

(** [_scan_once]; [fuel] bounds the nesting depth and the number of items
    of a container. *)
Fixpoint scan_once (fuel : nat) (s : pystr) : option (PyVal * pystr) :=
  match fuel with
  | O => None
  | S fuel' =>
      match s with
      | [] => None
      | c :: r =>
          if (c =? 34)%N then
            match scanstring (length r) r with
            | Some (str, r') => Some (PyStr str, r')
            | None => None
            end
          else if (c =? 123)%N then JSONObject (scan_once fuel') fuel' r
          else if (c =? 91)%N then JSONArray (scan_once fuel') fuel' r
          else
            match strip_prefix (py "null") s with
            | Some r' => Some (PyNone, r')
            | None =>
                match strip_prefix (py "true") s with
                | Some r' => Some (PyBool true, r')
                | None =>
                    match strip_prefix (py "false") s with
                    | Some r' => Some (PyBool false, r')
                    | None => scan_number s
                    end
                end
            end
      end
  end.

(** [json.loads(s)]: one value between optional whitespace, nothing after
    it, no byte order mark in front. *)
Definition loads (s : pystr) : option PyVal :=
  match s with
  | c :: _ => if (c =? 0xfeff)%N then None else
      match scan_once (S (length s)) (skip_ws s) with
      | Some (obj, r) => match skip_ws r with [] => Some obj | _ :: _ => None end
      | None => None
      end
  | [] => None
  end.

End Json.

(** *** Which values [json.dumps] accepts, read off the value alone *)

Definition json_key (k : PyVal) : bool :=
  match k with
  | PyStr _ | PyInt _ | PyBool _ | PyNone => true
  | _ => false
  end.

Fixpoint json_encodable (v : PyVal) : bool :=
  match v with
  | PyNone | PyBool _ | PyInt _ | PyStr _ => true
  | PyList l | PyTuple l => forallb json_encodable l
  | PyDict items => forallb (fun kv => json_key (fst kv) && json_encodable (snd kv)) items
  | PySet _ | PyBytes _ => false
  end.

Definition is_str (v : PyVal) : bool :=
  match v with PyStr _ => true | _ => false end.

(** *** Which values come back from [json.loads] as they were *)

(** A well-formed [str] holds code points only; the decoder merges an
    escaped high surrogate with an escaped low surrogate that follows it,
    so a string that holds such a pair as two characters does not come
    back. *)
Fixpoint no_surrogate_pair (s : pystr) : bool :=
  match s with
  | c :: r =>
      match r with
      | d :: _ => negb (Json.is_high_surrogate c && Json.is_low_surrogate d)
      | [] => true
      end && no_surrogate_pair r
  | [] => true
  end.

Definition code_points (s : pystr) : bool := forallb (fun c => (c <? 0x110000)%N) s.

Definition plain_str (s : pystr) : bool := code_points s && no_surrogate_pair s.

(** The keys of a [dict] are pairwise different under [==]. *)
Fixpoint distinct_keys (items : list (PyVal * PyVal)) : bool :=
  match items with
  | [] => true
  | kv :: r => negb (existsb (fun kv' => py_eqb (fst kv) (fst kv')) r) && distinct_keys r
  end.

(** The values of JSON's own data model: [None], booleans, integers,
    strings, lists of such values, and dicts from strings to such
    values. *)
Fixpoint json_native (v : PyVal) : bool :=
  match v with
  | PyNone | PyBool _ | PyInt _ => true
  | PyStr s => plain_str s
  | PyList l => forallb json_native l
  | PyDict items =>
      forallb (fun kv =>
                 match fst kv with PyStr k => plain_str k | _ => false end
                 && json_native (snd kv)) items
      && distinct_keys items
  | PyTuple _ | PySet _ | PyBytes _ => false
  end.

(** The number of nodes of a value, an upper bound on the nesting depth
    and on the item count that [scan_once] meets while reading it. *)
Fixpoint size (v : PyVal) : nat :=
  match v with
  | PyList l | PyTuple l | PySet l =>
      S ((fix sum (l : list PyVal) : nat :=
            match l with [] => O | x :: r => S (size x + sum r) end) l)
  | PyDict items =>
      S ((fix sum (l : list (PyVal * PyVal)) : nat :=
            match l with [] => O | kv :: r => S (size (snd kv) + sum r) end) items)
  | _ => 1
  end.

(** What may follow a value inside a text: nothing, a comma, or a closing
    bracket or brace. *)
Definition stop (rest : pystr) : bool :=
  match rest with
  | [] => true
  | c :: _ => ((c =? 44) || (c =? 93) || (c =? 125))%N
  end.

(** The characters an encoded value can begin with. *)
Definition value_head (c : N) : bool :=
  ((c =? 34) || (c =? 123) || (c =? 91) || (c =? 110) || (c =? 116) || (c =? 102)
   || (c =? 45) || Json.is_digit c)%N.


(** [text] begins like an encoded value. *)
Definition starts_value (text : pystr) : Prop :=
  exists c t, text = c :: t /\ value_head c = true.

(** [text] is an encoding of [v] that the scanner reads back: whatever
    admissible rest follows it, and with any fuel above the size of [v],
    [scan_once] returns [v] and that rest. *)
Definition reads_back (v : PyVal) (text : pystr) : Prop :=
  starts_value text /\
  (size v <= length text)%nat /\
  forall fuel rest, (size v < fuel)%nat -> stop rest = true ->
    Json.scan_once fuel (text ++ rest) = Some (v, rest).

(** ** [hera/env.py] *)

Module Env.

(** The classes of [argo_workflows.models] that [env.py] instantiates:
    keyword-constructed records, an attribute that was not passed being
    absent ([None]). *)
Record SecretKeySelector := { sks_name : pystr; sks_key : pystr }.
Record ConfigMapKeySelector := { cmks_name : pystr; cmks_key : pystr }.
Record ObjectFieldSelector := { ofs_field_path : pystr; ofs_api_version : option pystr }.

(** [ObjectFieldSelector(field_path=..., api_version=...)].  A model class
    checks the type of every keyword it is given: [api_version] is declared
    a [str] that is not nullable, so a [None] passed for it is refused with
    [ApiTypeError].  The other keywords that [env.py] passes are strings by
    their annotations. *)
Definition ObjectFieldSelector_new (field_path : pystr) (api_version : option pystr)
  : result ObjectFieldSelector :=
  match api_version with
  | Some v => Ok {| ofs_field_path := field_path; ofs_api_version := Some v |}
  | None => Raise ApiTypeError
  end.

Record EnvVarSource := {
  secret_key_ref : option SecretKeySelector;
  config_map_key_ref : option ConfigMapKeySelector;
  field_ref : option ObjectFieldSelector
}.

Record EnvVar := {
  ev_name : pystr;
  ev_value : option pystr;
  ev_value_from : option EnvVarSource
}.

Module EnvSpec.

Record t := {
  name : pystr;
  value : PyVal;                       (* Optional[Any] = None *)
  value_from_input : option pystr      (* Optional[str] = None *)
}.

Definition build (self : t) : result EnvVar :=
  value ←
    match value_from_input self with
    | Some _ => Ok (py "{{inputs.parameters." ++ name self ++ py "}}")
    | None =>
        match value self with
        | PyStr s => Ok s
        | v => Json.dumps v
        end
    end;
  Ok {| ev_name := name self; ev_value := Some value; ev_value_from := None |}.

End EnvSpec.

Module SecretEnvSpec.

(** [SecretEnvSpec(EnvSpec, SecretNamedKey)]: the fields of both bases. *)
Record t := {
  secret_name : pystr;
  secret_key : pystr;
  name : pystr;
  value : PyVal;
  value_from_input : option pystr
}.

Definition build (self : t) : EnvVar :=
  {| ev_name := name self;
     ev_value := None;
     ev_value_from :=
       Some {| secret_key_ref :=
                 Some {| sks_name := secret_name self; sks_key := secret_key self |};
               config_map_key_ref := None;
               field_ref := None |} |}.

End SecretEnvSpec.

Module ConfigMapEnvSpec.

(** [ConfigMapEnvSpec(EnvSpec, ConfigMapNamedKey)] *)
Record t := {
  config_map_name : pystr;
  config_map_key : pystr;
  name : pystr;
  value : PyVal;
  value_from_input : option pystr
}.

Definition build (self : t) : EnvVar :=
  {| ev_name := name self;
     ev_value := None;
     ev_value_from :=
       Some {| secret_key_ref := None;
               config_map_key_ref :=
                 Some {| cmks_name := config_map_name self;
                         cmks_key := config_map_key self |};
               field_ref := None |} |}.

End ConfigMapEnvSpec.

Module FieldEnvSpec.

(** [FieldEnvSpec(EnvSpec, FieldPath)], with its own [api_version]. *)
Record t := {
  field_path : pystr;
  name : pystr;
  value : PyVal;
  value_from_input : option pystr;
  api_version : option pystr           (* Optional[str] = "v1" *)
}.

Definition build (self : t) : result EnvVar :=
  ref ← ObjectFieldSelector_new (field_path self) (api_version self);
  Ok {| ev_name := name self;
        ev_value := None;
        ev_value_from :=
          Some {| secret_key_ref := None;
                  config_map_key_ref := None;
                  field_ref := Some ref |} |}.

End FieldEnvSpec.

End Env.

(** ** [hera/workflow.py] *)

Module Wf.

(** *** The collaborators of [workflow.py] that are not part of these sources *)

(** Task objects are shared between the caller, the DAG that lists them and
    the Workflow: they live in a store and are passed by reference. *)
Abbreviation TaskRef := nat.

(** Modelled from the spec: the Task entity of [hera/task.py], which is
    missing here, reduced to the attributes that [Workflow.on_exit]
    reads and writes: the task's name and its exit-task mark. *)
Record Task := { task_name : pystr; is_exit_task : bool }.

Abbreviation TaskStore := (TaskRef -> Task).

(** Modelled from the spec: the DAG entity of [hera/dag.py], which is
    missing here: "name, ordered task list" (section 3); the DAG a Workflow
    creates on entering its scope is empty (section 4.4). *)
Record DAG := { dag_name : pystr; dag_tasks : list TaskRef }.

Global Instance DAG_eq_dec : EqDecision DAG.
Proof. solve_decision. Defined.

(** Modelled from the spec: [DAG(name=...)], the empty DAG of that name. *)
Definition DAG_init (name : pystr) : DAG := {| dag_name := name; dag_tasks := [] |}.

(** Modelled from the spec: the main execution template chain that the
    missing [DAG.build] of [hera/dag.py] assembles leaves out the tasks
    marked as exit tasks (section 8, last property). *)
Definition main_chain (d : DAG) (store : TaskStore) : list TaskRef :=
  filter (fun r => is_exit_task (store r) = false) (dag_tasks d).

(** Modelled from the spec: [hera.parameter.Parameter], which is missing
    here, as the name and the value its constructor is given. *)
Record HeraParameter := { p_name : pystr; p_value : option pystr }.

(** The remaining classes that [workflow.py] imports, left abstract: the
    scheduling and lifecycle primitives, the manifest fragments their
    compile methods return, the submission service and the process-wide
    DAG context of [hera._context]. *)
Class Externals := {
  Fragment : Type;
  TTLStrategy : Type;
  VolumeClaimGCStrategy : Type;
  HostAlias : Type;
  WorkflowSecurityContext : Type;
  Affinity : Type;
  Toleration : Type;
  WorkflowService : Type;
  DagContext : Type
}.

Section Model.
Context {E : Externals}.

(** The value of an attribute of a generated model object. *)
Inductive attr : Type :=
| AStr (s : pystr)
| AInt (z : Z)
| ADict (d : list (pystr * pystr))
| AFragment (f : Fragment)
| AFragments (l : list Fragment)
| AVolumeClaimGC (strategy : pystr)              (* IoArgoprojWorkflowV1alpha1VolumeClaimGC *)
| ALocalObjectReferences (names : list pystr)    (* [LocalObjectReference(name=name), ...] *)
| AArguments (parameters : list Fragment).       (* IoArgoprojWorkflowV1alpha1Arguments *)

(** [ObjectMeta] and [IoArgoprojWorkflowV1alpha1WorkflowSpec] hold exactly
    the attributes that were set on them: a finite map from attribute
    names. *)
Abbreviation model_object := (gmap string attr).

Definition setattr (o : model_object) (key : string) (v : attr) : model_object :=
  <[key := v]> o.

(** [IoArgoprojWorkflowV1alpha1Workflow(metadata=..., spec=...)] *)
Record Manifest := { metadata : model_object; spec : model_object }.

Record Workflow := {
  name : pystr;
  service : WorkflowService;
  parallelism : option Z;
  security_context : option WorkflowSecurityContext;
  service_account_name : option pystr;
  labels : option (list (pystr * pystr));
  annotations : option (list (pystr * pystr));
  image_pull_secrets : option (list pystr);
  workflow_template_ref : option pystr;
  node_selector : option (list (pystr * pystr));
  ttl_strategy : option TTLStrategy;
  affinity : option Affinity;
  parameters : option (list HeraParameter);
  tolerations : option (list Toleration);
  in_context : bool;
  volume_claim_gc_strategy : option VolumeClaimGCStrategy;
  host_aliases : option (list HostAlias);
  dag : option DAG;
  exit_task : option pystr;
  tasks : list TaskRef
}.

(** What a method of a Workflow can change besides the Workflow itself:
    the task objects, the ambient DAG context, and the calls received by
    the submission services. *)
Record World := {
  store : TaskStore;
  context : DagContext;
  submitted : list (WorkflowService * Manifest)
}.

(** The methods of the missing modules, as far as [workflow.py] calls
    them.  A call may raise; the compile methods only read the task
    store.  [WorkflowService_bool] is the truth value of a service object,
    which [service or WorkflowService()] tests.  The DAG context holds DAG
    objects by reference, among them the Workflow's own DAG while the
    Workflow is in scope, and the constructor of a Task registers the new
    Task in the DAG on top of the context: [Task_init] is given the
    caller's own DAG as well, and returns it as the call leaves it. *)
Class Collaborators := {
  validate_name : pystr -> result pystr;
  WorkflowService_new : result WorkflowService;
  WorkflowService_bool : WorkflowService -> bool;
  create_workflow : WorkflowService -> Manifest -> result unit;
  TTLStrategy_build : TTLStrategy -> result Fragment;
  VolumeClaimGCStrategy_value : VolumeClaimGCStrategy -> pystr;
  argo_host_alias : HostAlias -> Fragment;
  get_security_context : WorkflowSecurityContext -> result Fragment;
  Parameter_as_argument : HeraParameter -> result Fragment;
  Affinity_build : Affinity -> result Fragment;
  Toleration_build : Toleration -> result Fragment;
  DAG_build_templates : DAG -> TaskStore -> result (list Fragment);
  DAG_build : DAG -> TaskStore -> result (list Fragment);
  DAG_build_volume_claim_templates : DAG -> TaskStore -> result (list Fragment);
  DAG_build_persistent_volume_claims : DAG -> TaskStore -> result (list Fragment);
  dag_context_enter : DAG -> DagContext -> result unit * DagContext;
  dag_context_exit : DagContext -> result unit * DagContext;
  Task_init : pystr -> DAG -> TaskStore -> DagContext -> option DAG ->
              result TaskRef * TaskStore * DagContext * option DAG
}.

Context {C : Collaborators}.

Definition set_in_context (b : bool) (w : Workflow) : Workflow :=
  {| name := name w; service := service w; parallelism := parallelism w;
     security_context := security_context w;
     service_account_name := service_account_name w;
     labels := labels w; annotations := annotations w;
     image_pull_secrets := image_pull_secrets w;
     workflow_template_ref := workflow_template_ref w;
     node_selector := node_selector w; ttl_strategy := ttl_strategy w;
     affinity := affinity w; parameters := parameters w;
     tolerations := tolerations w;
     in_context := b;
     volume_claim_gc_strategy := volume_claim_gc_strategy w;
     host_aliases := host_aliases w; dag := dag w; exit_task := exit_task w;
     tasks := tasks w |}.

Definition set_dag (d : option DAG) (w : Workflow) : Workflow :=
  {| name := name w; service := service w; parallelism := parallelism w;
     security_context := security_context w;
     service_account_name := service_account_name w;
     labels := labels w; annotations := annotations w;
     image_pull_secrets := image_pull_secrets w;
     workflow_template_ref := workflow_template_ref w;
     node_selector := node_selector w; ttl_strategy := ttl_strategy w;
     affinity := affinity w; parameters := parameters w;
     tolerations := tolerations w;
     in_context := in_context w;
     volume_claim_gc_strategy := volume_claim_gc_strategy w;
     host_aliases := host_aliases w; dag := d; exit_task := exit_task w;
     tasks := tasks w |}.

Definition set_exit_task (t : option pystr) (w : Workflow) : Workflow :=
  {| name := name w; service := service w; parallelism := parallelism w;
     security_context := security_context w;
     service_account_name := service_account_name w;
     labels := labels w; annotations := annotations w;
     image_pull_secrets := image_pull_secrets w;
     workflow_template_ref := workflow_template_ref w;
     node_selector := node_selector w; ttl_strategy := ttl_strategy w;
     affinity := affinity w; parameters := parameters w;
     tolerations := tolerations w;
     in_context := in_context w;
     volume_claim_gc_strategy := volume_claim_gc_strategy w;
     host_aliases := host_aliases w; dag := dag w; exit_task := t;
     tasks := tasks w |}.

Definition set_store (s : TaskStore) (σ : World) : World :=
  {| store := s; context := context σ; submitted := submitted σ |}.

Definition set_context (c : DagContext) (σ : World) : World :=
  {| store := store σ; context := c; submitted := submitted σ |}.

Definition set_submitted (l : list (WorkflowService * Manifest)) (σ : World) : World :=
  {| store := store σ; context := context σ; submitted := l |}.

Definition mark_exit_task (t : Task) : Task :=
  {| task_name := task_name t; is_exit_task := true |}.

(** [service or WorkflowService()]: the service given, unless it is
    [None] or falsy; then a new one, whose constructor may raise. *)
Definition service_or_new (service : option WorkflowService) : result WorkflowService :=
  match service with
  | Some s => if WorkflowService_bool s then Ok s else WorkflowService_new
  | None => WorkflowService_new
  end.

(** [Workflow.__init__] *)
Definition __init__
    (name : pystr)
    (service : option WorkflowService)
    (parallelism : option Z)
    (service_account_name : option pystr)
    (labels annotations : option (list (pystr * pystr)))
    (security_context : option WorkflowSecurityContext)
    (image_pull_secrets : option (list pystr))
    (workflow_template_ref : option pystr)
    (ttl_strategy : option TTLStrategy)
    (volume_claim_gc_strategy : option VolumeClaimGCStrategy)
    (host_aliases : option (list HostAlias))
    (node_selectors : option (list (pystr * pystr)))
    (affinity : option Affinity)
    (dag : option DAG)
    (parameters : option (list HeraParameter))
    (tolerations : option (list Toleration)) : result Workflow :=
  name' ← validate_name name;
  service' ← service_or_new service;
  Ok {| name := name';
        service := service';
        parallelism := parallelism;
        security_context := security_context;
        service_account_name := service_account_name;
        labels := labels;
        annotations := annotations;
        image_pull_secrets := image_pull_secrets;
        workflow_template_ref := workflow_template_ref;
        node_selector := node_selectors;
        ttl_strategy := ttl_strategy;
        affinity := affinity;
        parameters := parameters;
        tolerations := tolerations;
        in_context := false;
        volume_claim_gc_strategy := volume_claim_gc_strategy;
        host_aliases := host_aliases;
        dag := dag;
        exit_task := None;
        tasks := [] |}.

(** [if x:] on an optional dict or on a list: neither [None] nor empty. *)
Definition truthy {A} (o : option (list A)) : bool :=
  match o with
  | Some (_ :: _) => true
  | _ => false
  end.

Definition _build_metadata (self : Workflow) (use_name : bool) : model_object :=
  let metadata : model_object := ∅ in
  let metadata := if use_name then setattr metadata "name" (AStr (name self)) else metadata in
  let metadata :=
    if truthy (labels self)
    then setattr metadata "labels" (ADict (default [] (labels self))) else metadata in
  let metadata :=
    if truthy (annotations self)
    then setattr metadata "annotations" (ADict (default [] (annotations self)))
    else metadata in
  metadata.

(** [if self.x is not None: setattr(spec, key, f(self.x))] *)
Definition set_if_present {A} (x : option A) (key : string) (f : A -> result attr)
    (spec : model_object) : result model_object :=
  match x with
  | Some a => v ← f a; Ok (setattr spec key v)
  | None => Ok spec
  end.

Definition _build_spec (self : Workflow) (st : TaskStore) (workflow_template : bool)
  : result model_object :=
  match dag self with
  | None => Raise AssertionError
  | Some d =>
      let spec : model_object := ∅ in
      templates ← DAG_build_templates d st;
      '(templates, spec) ←
        (if negb workflow_template then
           main ← DAG_build d st;
           Ok (templates ++ main, setattr spec "entrypoint" (AStr (name self)))
         else Ok (templates, spec));
      let spec := setattr spec "templates" (AFragments templates) in
      spec ← set_if_present (parallelism self) "parallelism" (fun p => Ok (AInt p)) spec;
      spec ← set_if_present (ttl_strategy self) "ttl_strategy"
                (fun t => f ← TTLStrategy_build t; Ok (AFragment f)) spec;
      spec ← set_if_present (volume_claim_gc_strategy self) "volume_claim_gc"
                (fun g => Ok (AVolumeClaimGC (VolumeClaimGCStrategy_value g))) spec;
      spec ← set_if_present (host_aliases self) "host_aliases"
                (fun hs => Ok (AFragments (map argo_host_alias hs))) spec;
      spec ← set_if_present (security_context self) "security_context"
                (fun sc => f ← get_security_context sc; Ok (AFragment f)) spec;
      spec ← set_if_present (service_account_name self) "service_account_name"
                (fun n => Ok (AStr n)) spec;
      spec ← set_if_present (image_pull_secrets self) "image_pull_secrets"
                (fun names => Ok (ALocalObjectReferences names)) spec;
      spec ← set_if_present (parameters self) "arguments"
                (fun ps => args ← traverse Parameter_as_argument ps; Ok (AArguments args)) spec;
      spec ← set_if_present (affinity self) "affinity"
                (fun a => f ← Affinity_build a; Ok (AFragment f)) spec;
      spec ← set_if_present (node_selector self) "node_selector"
                (fun ns => Ok (ADict ns)) spec;
      spec ← set_if_present (tolerations self) "tolerations"
                (fun ts => fs ← traverse Toleration_build ts; Ok (AFragments fs)) spec;
      vct ← DAG_build_volume_claim_templates d st;
      let spec := if truthy (Some vct)
                  then setattr spec "volume_claim_templates" (AFragments vct) else spec in
      pcvs ← DAG_build_persistent_volume_claims d st;
      let spec := if truthy (Some pcvs)
                  then setattr spec "volumes" (AFragments pcvs) else spec in
      spec ← set_if_present (exit_task self) "on_exit" (fun n => Ok (AStr n)) spec;
      Ok spec
  end.

(** [Workflow.build] *)
Definition build (self : Workflow) (st : TaskStore) : result Manifest :=
  let metadata := _build_metadata self true in
  spec ← _build_spec self st false;
  Ok {| metadata := metadata; spec := spec |}.

(** What a method hands back to its caller. *)
Inductive returned : Type := ReturnsSelf | ReturnsNone.

(** The outcome of a method call: its result, the Workflow and the world
    as the call leaves them, whether it returned or raised. *)
Definition outcome : Type := result returned * Workflow * World.

(** [if self.dag:] tests for [None]: a DAG is an object of a plain class,
    truthy whatever it holds. *)
Definition __enter__ (self : Workflow) (σ : World) : outcome :=
  let self := set_in_context true self in
  match dag self with
  | Some _ => (Raise (ValueError (py "DAG already set for workflow")), self, σ)
  | None =>
      let d := DAG_init (name self) in
      let self := set_dag (Some d) self in
      match dag_context_enter d (context σ) with
      | (Ok _, c) => (Ok ReturnsSelf, self, set_context c σ)
      | (Raise e, c) => (Raise e, self, set_context c σ)
      end
  end.

Definition __exit__ (self : Workflow) (σ : World) : outcome :=
  let self := set_in_context false self in
  match dag_context_exit (context σ) with
  | (Ok _, c) => (Ok ReturnsNone, self, set_context c σ)
  | (Raise e, c) => (Raise e, self, set_context c σ)
  end.

Definition create (self : Workflow) (σ : World) : outcome :=
  match dag self with
  | None => (Raise AssertionError, self, σ)
  | Some _ =>
      if in_context self then
        (Raise (ValueError (py "Cannot invoke `create` when using a Hera context")), self, σ)
      else
        match build self (store σ) with
        | Ok manifest =>
            let σ := set_submitted (submitted σ ++ [(service self, manifest)]) σ in
            match create_workflow (service self) manifest with
            | Ok _ => (Ok ReturnsSelf, self, σ)
            | Raise e => (Raise e, self, σ)
            end
        | Raise e => (Raise e, self, σ)
        end
  end.

(** [other: Union[Task, DAG]] *)
Inductive task_or_dag : Type :=
| IsTask (r : TaskRef)
| IsDag (d : DAG).

Definition on_exit (self : Workflow) (other : task_or_dag) (σ : World) : outcome :=
  match other with
  | IsTask r =>
      let self := set_exit_task (Some (task_name (store σ r))) self in
      let σ := set_store (<[r := mark_exit_task (store σ r)]> (store σ)) σ in
      (Ok ReturnsNone, self, σ)
  | IsDag d =>
      match Task_init (py "temp-name-for-hera-exit-dag") d (store σ) (context σ)
                      (dag self) with
      | (Ok t, st, c, own) =>
          let self := set_dag own self in
          let st := <[t := mark_exit_task (st t)]> st in
          let self := set_exit_task (Some (dag_name d)) self in
          (Ok ReturnsNone, self, set_context c (set_store st σ))
      | (Raise e, st, c, own) =>
          (Raise e, set_dag own self, set_context c (set_store st σ))
      end
  end.

Definition get_parameter (self : Workflow) (name : pystr) : result HeraParameter :=
  match parameters self with
  | None => Raise (KeyError (py "`{name}` not in workflow parameters"))
  | Some ps =>
      match find (fun p => bool_decide (p_name p = name)) ps with
      | None => Raise (KeyError (py "`{name}` not in workflow parameters"))
      | Some _ =>
          Ok {| p_name := name;
                p_value := Some (py "{{workflow.parameters." ++ name ++ py "}}") |}
      end
  end.

End Model.

Abbreviation model_object := (gmap string attr).

End Wf.

(** *** Vocabulary of the properties *)

Section Vocabulary.
Context {E : Wf.Externals}.

(** None of the optional settings of a Workflow was given, and no exit
    handler was designated. *)
Definition no_optional_fields (w : Wf.Workflow) : Prop :=
  Wf.parallelism w = None /\ Wf.ttl_strategy w = None /\
  Wf.volume_claim_gc_strategy w = None /\ Wf.host_aliases w = None /\
  Wf.security_context w = None /\ Wf.service_account_name w = None /\
  Wf.image_pull_secrets w = None /\ Wf.parameters w = None /\
  Wf.affinity w = None /\ Wf.node_selector w = None /\
  Wf.tolerations w = None /\ Wf.labels w = None /\
  Wf.annotations w = None /\ Wf.exit_task w = None.

(** The keys of the spec and of the metadata that these settings feed. *)
Definition optional_spec_keys : list string :=
  ["parallelism"; "ttl_strategy"; "volume_claim_gc"; "host_aliases";
   "security_context"; "service_account_name"; "image_pull_secrets";
   "arguments"; "affinity"; "node_selector"; "tolerations"; "on_exit"].

Definition optional_metadata_keys : list string := ["labels"; "annotations"].

(** The manifest [m] with the exit handler of its spec set to [n]. *)
Definition with_on_exit (n : pystr) (m : Wf.Manifest) : Wf.Manifest :=
  {| Wf.metadata := Wf.metadata m;
     Wf.spec := Wf.setattr (Wf.spec m) "on_exit" (Wf.AStr n) |}.

End Vocabulary.

(** *** A small instantiation of the collaborators

    Fragments are strings, the DAG context is the stack of the entered
    DAGs, every compile method succeeds.  It serves to run the model on
    concrete workflows. *)

Module Sample.

Definition externals : Wf.Externals :=
  {| Wf.Fragment := pystr;
     Wf.TTLStrategy := Z;
     Wf.VolumeClaimGCStrategy := pystr;
     Wf.HostAlias := pystr;
     Wf.WorkflowSecurityContext := Z;
     Wf.Affinity := pystr;
     Wf.Toleration := pystr;
     Wf.WorkflowService := pystr;
     Wf.DagContext := list Wf.DAG |}.

#[local] Existing Instance externals.

Definition collaborators : @Wf.Collaborators externals :=
  {| Wf.validate_name := fun n => Ok n;
     Wf.WorkflowService_new := Ok (py "https://localhost:2746");
     Wf.WorkflowService_bool := fun _ => true;
     Wf.create_workflow := fun _ _ => Ok tt;
     Wf.TTLStrategy_build := fun t => Ok (Json.int_repr t);
     Wf.VolumeClaimGCStrategy_value := fun g => g;
     Wf.argo_host_alias := fun h => h;
     Wf.get_security_context := fun u => Ok (Json.int_repr u);
     Wf.Parameter_as_argument := fun p => Ok (Wf.p_name p);
     Wf.Affinity_build := fun a => Ok a;
     Wf.Toleration_build := fun t => Ok t;
     Wf.DAG_build_templates := fun d st => Ok (map (fun r => Wf.task_name (st r)) (Wf.dag_tasks d));
     Wf.DAG_build := fun d st =>
       Ok [Wf.dag_name d ++ py ": "
             ++ join (py ", ") (map (fun r => Wf.task_name (st r)) (Wf.main_chain d st))];
     Wf.DAG_build_volume_claim_templates := fun _ _ => Ok [];
     Wf.DAG_build_persistent_volume_claims := fun _ _ => Ok [];
     Wf.dag_context_enter := fun d c => (Ok tt, d :: c);
     Wf.dag_context_exit := fun c => (Ok tt, tail c);
     Wf.Task_init := fun n d st c own =>
       let register (a : Wf.DAG) :=
         {| Wf.dag_name := Wf.dag_name a; Wf.dag_tasks := Wf.dag_tasks a ++ [0] |} in
       (Ok 0, <[0 := {| Wf.task_name := n; Wf.is_exit_task := false |}]> st,
        match c with top :: below => register top :: below | [] => [] end,
        match c, own with
        | top :: _, Some a => if decide (top = a) then Some (register a) else own
        | _, _ => own
        end) |}.

(** [Workflow("w")], then the same workflow with a two-task DAG. *)
Definition plain : @Wf.Workflow externals :=
  {| Wf.name := py "w"; Wf.service := py "https://localhost:2746";
     Wf.parallelism := None; Wf.security_context := None;
     Wf.service_account_name := None; Wf.labels := None; Wf.annotations := None;
     Wf.image_pull_secrets := None; Wf.workflow_template_ref := None;
     Wf.node_selector := None; Wf.ttl_strategy := None; Wf.affinity := None;
     Wf.parameters := None; Wf.tolerations := None; Wf.in_context := false;
     Wf.volume_claim_gc_strategy := None; Wf.host_aliases := None;
     Wf.dag := None; Wf.exit_task := None; Wf.tasks := [] |}.

Definition two_tasks : Wf.DAG := {| Wf.dag_name := py "w"; Wf.dag_tasks := [1; 2] |}.

Definition with_dag : @Wf.Workflow externals := Wf.set_dag (Some two_tasks) plain.

Definition tasks : Wf.TaskStore :=
  fun r => {| Wf.task_name := py "t" ++ Json.int_repr (Z.of_nat r);
              Wf.is_exit_task := false |}.

Definition world : @Wf.World externals :=
  {| Wf.store := tasks; Wf.context := []; Wf.submitted := [] |}.

(** [Workflow("w", parameters=[Parameter("a"), Parameter("b")])] *)
Definition with_parameters : @Wf.Workflow externals :=
  {| Wf.name := py "w"; Wf.service := py "https://localhost:2746";
     Wf.parallelism := None; Wf.security_context := None;
     Wf.service_account_name := None; Wf.labels := None; Wf.annotations := None;
     Wf.image_pull_secrets := None; Wf.workflow_template_ref := None;
     Wf.node_selector := None; Wf.ttl_strategy := None; Wf.affinity := None;
     Wf.parameters := Some [ {| Wf.p_name := py "a"; Wf.p_value := None |};
                             {| Wf.p_name := py "b"; Wf.p_value := None |} ];
     Wf.tolerations := None; Wf.in_context := false;
     Wf.volume_claim_gc_strategy := None; Wf.host_aliases := None;
     Wf.dag := None; Wf.exit_task := None; Wf.tasks := [] |}.


Definition ids_set_from_input : Env.EnvSpec.t :=
  {| Env.EnvSpec.name := py "IDS";
     Env.EnvSpec.value := PySet [PyInt 1];
     Env.EnvSpec.value_from_input := Some (py "ids") |}.

(** [FieldEnvSpec("POD", field_path="metadata.name")] and
    [FieldEnvSpec("POD", field_path="metadata.name", api_version=None)] *)
Definition pod_name : Env.FieldEnvSpec.t :=
  {| Env.FieldEnvSpec.field_path := py "metadata.name";
     Env.FieldEnvSpec.name := py "POD";
     Env.FieldEnvSpec.value := PyNone;
     Env.FieldEnvSpec.value_from_input := None;
     Env.FieldEnvSpec.api_version := Some (py "v1") |}.

Definition pod_name_unversioned : Env.FieldEnvSpec.t :=
  {| Env.FieldEnvSpec.field_path := py "metadata.name";
     Env.FieldEnvSpec.name := py "POD";
     Env.FieldEnvSpec.value := PyNone;
     Env.FieldEnvSpec.value_from_input := None;
     Env.FieldEnvSpec.api_version := None |}.

End Sample.

(** *** Vocabulary of the further properties *)

(** The value a call returned, if it returned. *)
Definition returned_value {A} (r : result A) : option A :=
  match r with
  | Ok a => Some a
  | Raise _ => None
  end.

(** Printable ASCII: the characters from the space to the tilde. *)
Definition printable (s : pystr) : bool :=
  forallb (fun c => (32 <=? c) && (c <=? 126))%N s.

(** [e] with another value. *)
Definition with_value (v : PyVal) (e : Env.EnvSpec.t) : Env.EnvSpec.t :=
  {| Env.EnvSpec.name := Env.EnvSpec.name e;
     Env.EnvSpec.value := v;
     Env.EnvSpec.value_from_input := Env.EnvSpec.value_from_input e |}.

(** A dict key as [json.dumps] writes it: the string it is converted to,
    the key itself when it has no such conversion. *)
Definition written_key (k : PyVal) : PyVal :=
  match Json.key_string k with
  | Ok s => PyStr s
  | Raise _ => k
  end.

(** The items of a dict with each key as [json.dumps] writes it, in the
    order of the dict. *)
Definition written_items (items : list (PyVal * PyVal)) : list (PyVal * PyVal) :=
  map (fun kv => (written_key (fst kv), snd kv)) items.

(** The dict built from them, [{written(k): v for k, v in d.items()}]:
    where two written keys are the same, the later item replaces the
    value of the earlier one. *)
Definition with_written_keys (items : list (PyVal * PyVal)) : list (PyVal * PyVal) :=
  dict_of_pairs (written_items items).

(** How many source references a variable carries. *)
Definition source_count (ev : Env.EnvVar) : nat :=
  match Env.ev_value_from ev with
  | Some src =>
      length (option_list (Env.secret_key_ref src)) +
      length (option_list (Env.config_map_key_ref src)) +
      length (option_list (Env.field_ref src))
  | None => 0
  end.

Section FurtherVocabulary.
Context {E : Wf.Externals}.

(** [w] with other contents in the four fields that [build] never reads. *)
Definition with_unread_fields (svc : Wf.WorkflowService) (ref : option pystr)
    (b : bool) (ts : list Wf.TaskRef) (w : Wf.Workflow) : Wf.Workflow :=
  {| Wf.name := Wf.name w; Wf.service := svc; Wf.parallelism := Wf.parallelism w;
     Wf.security_context := Wf.security_context w;
     Wf.service_account_name := Wf.service_account_name w;
     Wf.labels := Wf.labels w; Wf.annotations := Wf.annotations w;
     Wf.image_pull_secrets := Wf.image_pull_secrets w;
     Wf.workflow_template_ref := ref;
     Wf.node_selector := Wf.node_selector w; Wf.ttl_strategy := Wf.ttl_strategy w;
     Wf.affinity := Wf.affinity w; Wf.parameters := Wf.parameters w;
     Wf.tolerations := Wf.tolerations w;
     Wf.in_context := b;
     Wf.volume_claim_gc_strategy := Wf.volume_claim_gc_strategy w;
     Wf.host_aliases := Wf.host_aliases w; Wf.dag := Wf.dag w;
     Wf.exit_task := Wf.exit_task w;
     Wf.tasks := ts |}.

(** Every key that [_build_spec] can set. *)
Definition spec_keys : list string :=
  ["entrypoint"; "templates"; "volume_claim_templates"; "volumes"] ++ optional_spec_keys.

End FurtherVocabulary.

(** A workflow of the sample instantiation with optional fields set, some
    of them to empty collections:
    [Workflow("w", parallelism=2, labels={}, annotations={"team": "ml"},
    tolerations=[], host_aliases=[], node_selectors={}, ttl_strategy=60,
    parameters=[Parameter("a")], dag=DAG("w"))] with tasks 1 and 2. *)
Module Configured.

#[local] Existing Instance Sample.externals.

Definition workflow : @Wf.Workflow Sample.externals :=
  {| Wf.name := py "w"; Wf.service := py "https://localhost:2746";
     Wf.parallelism := Some 2%Z; Wf.security_context := None;
     Wf.service_account_name := None;
     Wf.labels := Some [];
     Wf.annotations := Some [(py "team", py "ml")];
     Wf.image_pull_secrets := None; Wf.workflow_template_ref := Some (py "base");
     Wf.node_selector := Some []; Wf.ttl_strategy := Some 60%Z; Wf.affinity := None;
     Wf.parameters := Some [ {| Wf.p_name := py "a"; Wf.p_value := Some (py "1") |} ];
     Wf.tolerations := Some []; Wf.in_context := false;
     Wf.volume_claim_gc_strategy := None; Wf.host_aliases := Some [];
     Wf.dag := Some Sample.two_tasks; Wf.exit_task := None; Wf.tasks := [] |}.

(** The same names with other values:
    [Workflow("w", parameters=[Parameter("a", "1"), Parameter("b", "2")])]. *)
Definition with_valued_parameters : @Wf.Workflow Sample.externals :=
  {| Wf.name := py "w"; Wf.service := py "https://localhost:2746";
     Wf.parallelism := None; Wf.security_context := None;
     Wf.service_account_name := None; Wf.labels := None; Wf.annotations := None;
     Wf.image_pull_secrets := None; Wf.workflow_template_ref := None;
     Wf.node_selector := None; Wf.ttl_strategy := None; Wf.affinity := None;
     Wf.parameters := Some [ {| Wf.p_name := py "a"; Wf.p_value := Some (py "1") |};
                             {| Wf.p_name := py "b"; Wf.p_value := Some (py "2") |} ];
     Wf.tolerations := None; Wf.in_context := false;
     Wf.volume_claim_gc_strategy := None; Wf.host_aliases := None;
     Wf.dag := None; Wf.exit_task := None; Wf.tasks := [] |}.

(** [EnvSpec("LIMITS", value={"max": [3, None, "é"]})] *)
Definition limits : Env.EnvSpec.t :=
  {| Env.EnvSpec.name := py "LIMITS";
     Env.EnvSpec.value :=
       PyDict [(PyStr (py "max"), PyList [PyInt 3; PyNone; PyStr [233%N]])];
     Env.EnvSpec.value_from_input := None |}.

(** [EnvSpec("LIMITS", value=[1, 2])] *)
Definition pair : Env.EnvSpec.t :=
  {| Env.EnvSpec.name := py "LIMITS";
     Env.EnvSpec.value := PyList [PyInt 1; PyInt 2];
     Env.EnvSpec.value_from_input := None |}.

(** The collaborators of [Sample] where no host is configured: the
    constructor of the service raises. *)
Definition unconfigured : @Wf.Collaborators Sample.externals :=
  {| Wf.validate_name := Wf.validate_name (Collaborators := Sample.collaborators);
     Wf.WorkflowService_new := Raise AssertionError;
     Wf.WorkflowService_bool := fun _ => true;
     Wf.create_workflow := Wf.create_workflow (Collaborators := Sample.collaborators);
     Wf.TTLStrategy_build := Wf.TTLStrategy_build (Collaborators := Sample.collaborators);
     Wf.VolumeClaimGCStrategy_value :=
       Wf.VolumeClaimGCStrategy_value (Collaborators := Sample.collaborators);
     Wf.argo_host_alias := Wf.argo_host_alias (Collaborators := Sample.collaborators);
     Wf.get_security_context :=
       Wf.get_security_context (Collaborators := Sample.collaborators);
     Wf.Parameter_as_argument :=
       Wf.Parameter_as_argument (Collaborators := Sample.collaborators);
     Wf.Affinity_build := Wf.Affinity_build (Collaborators := Sample.collaborators);
     Wf.Toleration_build := Wf.Toleration_build (Collaborators := Sample.collaborators);
     Wf.DAG_build_templates :=
       Wf.DAG_build_templates (Collaborators := Sample.collaborators);
     Wf.DAG_build := Wf.DAG_build (Collaborators := Sample.collaborators);
     Wf.DAG_build_volume_claim_templates :=
       Wf.DAG_build_volume_claim_templates (Collaborators := Sample.collaborators);
     Wf.DAG_build_persistent_volume_claims :=
       Wf.DAG_build_persistent_volume_claims (Collaborators := Sample.collaborators);
     Wf.dag_context_enter := Wf.dag_context_enter (Collaborators := Sample.collaborators);
     Wf.dag_context_exit := Wf.dag_context_exit (Collaborators := Sample.collaborators);
     Wf.Task_init := Wf.Task_init (Collaborators := Sample.collaborators) |}.


End Configured.

(** * Properties *)

(** ** Workflow *)

Section WorkflowFacts.
Context {E : Wf.Externals} {C : Wf.Collaborators}.
Import Wf.

Lemma setattr_lookup (o : model_object) key v : setattr o key v !! key = Some v.
Proof. apply lookup_insert_eq. Qed.

Lemma setattr_lookup_ne (o : model_object) key key' v :
  key <> key' -> setattr o key v !! key' = o !! key'.
Proof. intros. unfold setattr. by apply lookup_insert_ne. Qed.

Lemma setattr_twice (o : model_object) key v v' :
  setattr (setattr o key v) key v' = setattr o key v'.
Proof. apply insert_insert_eq. Qed.

(** What [_build_spec] yields when no optional field is set. *)
Lemma _build_spec_plain (w : Workflow) st d t1 t2 vct pcvs :
  no_optional_fields w ->
  dag w = Some d ->
  DAG_build_templates d st = Ok t1 ->
  DAG_build d st = Ok t2 ->
  DAG_build_volume_claim_templates d st = Ok vct ->
  DAG_build_persistent_volume_claims d st = Ok pcvs ->
  _build_spec w st false =
    Ok (let s := setattr (setattr ∅ "entrypoint" (AStr (name w)))
                   "templates" (AFragments (t1 ++ t2)) in
        let s := if truthy (Some vct)
                 then setattr s "volume_claim_templates" (AFragments vct) else s in
        if truthy (Some pcvs) then setattr s "volumes" (AFragments pcvs) else s).
Proof.
  intros (Hp & Httl & Hgc & Hh & Hsc & Hsa & Hips & Hpar & Haff & Hns & Htol & _ & _ & Hex)
         Hd H1 H2 H3 H4.
  unfold _build_spec.
  rewrite Hd, H1, H2, H3, H4, Hp, Httl, Hgc, Hh, Hsc, Hsa, Hips, Hpar, Haff, Hns, Htol, Hex.
  reflexivity.
Qed.

(** C2. A Workflow built with none of its optional fields set yields a
    manifest whose metadata carries the name, whose spec carries the
    entrypoint and the templates, and in which the key of every optional
    field is absent, from the spec as from the metadata. *)
Theorem build_omits_unset_fields (w : Workflow) st d t1 t2 vct pcvs :
  no_optional_fields w ->
  dag w = Some d ->
  DAG_build_templates d st = Ok t1 ->
  DAG_build d st = Ok t2 ->
  DAG_build_volume_claim_templates d st = Ok vct ->
  DAG_build_persistent_volume_claims d st = Ok pcvs ->
  exists m,
    build w st = Ok m /\
    metadata m !! "name" = Some (AStr (name w)) /\
    spec m !! "entrypoint" = Some (AStr (name w)) /\
    spec m !! "templates" = Some (AFragments (t1 ++ t2)) /\
    Forall (fun key => spec m !! key = None) optional_spec_keys /\
    Forall (fun key => metadata m !! key = None) optional_metadata_keys.
Proof.
  intros Hno Hd H1 H2 H3 H4.
  unfold build.
  rewrite (_build_spec_plain w st d t1 t2 vct pcvs Hno Hd H1 H2 H3 H4).
  destruct Hno as (_ & _ & _ & _ & _ & _ & _ & _ & _ & _ & _ & Hl & Ha & _).
  eexists; split; [reflexivity|].
  unfold _build_metadata; rewrite Hl, Ha.
  unfold optional_spec_keys, optional_metadata_keys.
  destruct vct, pcvs; cbn [truthy metadata spec rbind mbind result_bind];
    repeat split; repeat apply Forall_cons; try apply Forall_nil;
    repeat (rewrite setattr_lookup_ne by discriminate);
    first [apply setattr_lookup | apply lookup_empty].
Qed.

(** C3. [create] called inside the scope (after a successful [__enter__],
    which leaves [in_context] set and a DAG assigned) raises the
    invalid-state error and no service receives a call; once [__exit__] has
    cleared [in_context], with a DAG present, it hands the built manifest to
    the workflow's service and returns the workflow itself. *)
Theorem create_after_scope_only (w : Workflow) (σ : World) :
  (forall w' σ', __enter__ w σ = (Ok ReturnsSelf, w', σ') ->
     in_context w' = true /\ is_Some (dag w')) /\
  (in_context w = true -> is_Some (dag w) ->
     exists e, create w σ = (Raise e, w, σ) /\ InvalidStateError e) /\
  (forall r w' σ', __exit__ w σ = (r, w', σ') ->
     in_context w' = false /\ dag w' = dag w /\ submitted σ' = submitted σ) /\
  (in_context w = false -> is_Some (dag w) ->
     forall m, build w (store σ) = Ok m ->
       create_workflow (service w) m = Ok tt ->
       create w σ =
         (Ok ReturnsSelf, w, set_submitted (submitted σ ++ [(service w, m)]) σ)).
Proof.
  repeat split.
  - unfold __enter__ in H. cbn in H. destruct (dag w); [discriminate|].
    destruct (dag_context_enter _ _) as [[|] c]; inversion H; reflexivity.
  - unfold __enter__ in H. cbn in H. destruct (dag w); [discriminate|].
    destruct (dag_context_enter _ _) as [[|] c]; inversion H; eauto.
  - intros Hin [d Hd]. unfold create. rewrite Hd, Hin.
    eexists; split; [reflexivity | exact I].
  - unfold __exit__ in H.
    destruct (dag_context_exit _) as [[|] c]; inversion H; reflexivity.
  - unfold __exit__ in H.
    destruct (dag_context_exit _) as [[|] c]; inversion H; reflexivity.
  - unfold __exit__ in H.
    destruct (dag_context_exit _) as [[|] c]; inversion H; reflexivity.
  - intros Hin [d Hd] m Hm Hs. unfold create. rewrite Hd, Hin, Hm, Hs. reflexivity.
Qed.

(** C4. Entering the scope of a Workflow that already has a DAG raises the
    invalid-state error at once, before the DAG context is touched;
    without a DAG, and when the DAG context accepts the new scope, entry
    returns the workflow, now holding a fresh empty DAG that bears the
    workflow's name. *)
Theorem enter_needs_no_dag (w : Workflow) (σ : World) :
  (is_Some (dag w) ->
     exists e, __enter__ w σ = (Raise e, set_in_context true w, σ) /\
               InvalidStateError e) /\
  (dag w = None ->
     forall c, dag_context_enter (DAG_init (name w)) (context σ) = (Ok tt, c) ->
       exists w',
         __enter__ w σ = (Ok ReturnsSelf, w', set_context c σ) /\
         dag w' = Some (DAG_init (name w)) /\
         dag_name (DAG_init (name w)) = name w /\
         dag_tasks (DAG_init (name w)) = [] /\
         in_context w' = true).
Proof.
  split.
  - intros [d Hd]. unfold __enter__. cbn. rewrite Hd.
    eexists; split; [reflexivity | exact I].
  - intros Hd c Hc. unfold __enter__. cbn. rewrite Hd, Hc.
    eexists; repeat split.
Qed.

(** C8. A rejected [__enter__] has already set [in_context]: it leaves the
    Workflow with the flag set and its DAG kept, no scope was entered (the
    world, DAG context included, is untouched), and yet [create] on the
    Workflow so left raises the invalid-state error and submits nothing. *)
Theorem failed_enter_blocks_create (w : Workflow) (σ : World) :
  is_Some (dag w) ->
  exists e e',
    __enter__ w σ = (Raise e, set_in_context true w, σ) /\
    InvalidStateError e /\
    in_context (set_in_context true w) = true /\
    dag (set_in_context true w) = dag w /\
    (in_context w = false -> set_in_context true w <> w) /\
    create (set_in_context true w) σ = (Raise e', set_in_context true w, σ) /\
    InvalidStateError e'.
Proof.
  intros [d Hd]. unfold __enter__, create. cbn [dag set_in_context in_context].
  rewrite Hd. eexists _, _.
  repeat split.
  intros Hin Heq. apply (f_equal in_context) in Heq. cbn in Heq. congruence.
Qed.

Lemma rbind_step {A B D} (r : result A) (k1 : A -> result D)
    (k2 : A -> result B) (g : B -> result D) :
  (forall a, k1 a = rbind (k2 a) g) -> rbind r k1 = rbind (rbind r k2) g.
Proof. intros H. destruct r; cbn; auto. Qed.

Lemma _build_spec_exit_task (w : Workflow) st n :
  _build_spec (set_exit_task (Some n) w) st false =
    s ← _build_spec w st false; Ok (setattr s "on_exit" (AStr n)).
Proof.
  unfold _build_spec.
  cbn [set_exit_task dag name parallelism ttl_strategy volume_claim_gc_strategy
       host_aliases security_context service_account_name image_pull_secrets
       parameters affinity node_selector tolerations exit_task].
  destruct (dag w) as [d|]; [|reflexivity].
  unfold mbind, result_bind.
  apply rbind_step; intros templates.
  apply rbind_step; intros [templates' s0].
  do 13 (apply rbind_step; intros ?).
  destruct (exit_task w); cbn [set_if_present rbind mbind result_bind];
    [rewrite setattr_twice|]; reflexivity.
Qed.

(** C6. [on_exit] with a Task records the task's name as the exit handler
    and sets the task's mark in the store, where the DAG that lists the
    task sees it: the task is left out of the main chain of every DAG, and
    whenever the Workflow built before the call it builds after it, to
    the same manifest but for the [on_exit] key, now the task's name. *)
Theorem on_exit_task (w : Workflow) (σ : World) (r : TaskRef) :
  exists w' σ',
    on_exit w (IsTask r) σ = (Ok ReturnsNone, w', σ') /\
    exit_task w' = Some (task_name (store σ r)) /\
    is_exit_task (store σ' r) = true /\
    task_name (store σ' r) = task_name (store σ r) /\
    (forall d, r ∉ main_chain d (store σ')) /\
    build w' (store σ') = (m ← build w (store σ'); Ok (with_on_exit (task_name (store σ r)) m)) /\
    (forall m, build w' (store σ') = Ok m ->
       spec m !! "on_exit" = Some (AStr (task_name (store σ r)))).
Proof.
  eexists _, _; split; [reflexivity|].
  cbn [store set_store exit_task set_exit_task].
  rewrite fn_lookup_insert.
  assert (Hb : forall st,
    build (set_exit_task (Some (task_name (store σ r))) w) st =
    (m ← build w st; Ok (with_on_exit (task_name (store σ r)) m))).
  { intros st. unfold build. rewrite _build_spec_exit_task.
    unfold mbind, result_bind.
    destruct (_build_spec w st false); reflexivity. }
  repeat split.
  - intros d Hin. unfold main_chain in Hin.
    apply list_elem_of_filter in Hin as [Hm _].
    rewrite fn_lookup_insert in Hm. discriminate.
  - apply Hb.
  - intros m Hm. rewrite Hb in Hm.
    unfold mbind, result_bind in Hm.
    destruct (build w _); inversion Hm. apply setattr_lookup.
Qed.

End WorkflowFacts.

(** ** Induction over Python values *)

Lemma PyVal_induction (P : PyVal -> Prop) :
  P PyNone ->
  (forall b, P (PyBool b)) ->
  (forall z, P (PyInt z)) ->
  (forall s, P (PyStr s)) ->
  (forall l, Forall P l -> P (PyList l)) ->
  (forall l, Forall P l -> P (PyTuple l)) ->
  (forall items, Forall (fun kv => P (fst kv) /\ P (snd kv)) items -> P (PyDict items)) ->
  (forall l, Forall P l -> P (PySet l)) ->
  (forall b, P (PyBytes b)) ->
  forall v, P v.
Proof.
  intros HNone HBool HInt HStr HList HTuple HDict HSet HBytes.
  fix IH 1. intros [ | b | z | s | l | l | items | l | b].
  - exact HNone.
  - apply HBool.
  - apply HInt.
  - apply HStr.
  - apply HList. induction l as [|x l IHl]; constructor; [apply IH | exact IHl].
  - apply HTuple. induction l as [|x l IHl]; constructor; [apply IH | exact IHl].
  - apply HDict. induction items as [|[k x] items IHl]; constructor;
      [split; apply IH | exact IHl].
  - apply HSet. induction l as [|x l IHl]; constructor; [apply IH | exact IHl].
  - apply HBytes.
Qed.

(** ** [json.dumps] succeeds exactly on the encodable values *)

Section Encodable.
Import Json.




End Encodable.

(** ** [json.loads] reads back what [json.dumps] wrote *)

(** *** Strings *)

Section Strings.
Import Json.
Local Open Scope N_scope.

(** Linear arithmetic with division and remainder by constants. *)
Ltac div_lia := zify; Z.to_euclidean_division_equations; lia.

Lemma hex_value_digit d : d < 16 -> hex_value (hex_digit d) = Some d.
Proof.
  intros H.
  assert (Hd : d = 0 \/ d = 1 \/ d = 2 \/ d = 3 \/ d = 4 \/ d = 5 \/ d = 6 \/ d = 7 \/
               d = 8 \/ d = 9 \/ d = 10 \/ d = 11 \/ d = 12 \/ d = 13 \/ d = 14 \/ d = 15)
    by lia.
  repeat destruct Hd as [->|Hd]; try subst d; reflexivity.
Qed.

Lemma nibbles n :
  n < 65536 ->
  (N.shiftr n 12 mod 16) * 4096 + (N.shiftr n 8 mod 16) * 256 +
  (N.shiftr n 4 mod 16) * 16 + n mod 16 = n.
Proof.
  intros H. rewrite !N.shiftr_div_pow2.
  change (2 ^ 12) with 4096. change (2 ^ 8) with 256. change (2 ^ 4) with 16.
  div_lia.
Qed.

Lemma decode_hex4 n r : n < 65536 -> decode_uXXXX (hex4 n ++ r) = Some (n, r).
Proof.
  intros H. unfold hex4, decode_uXXXX. cbn [app].
  rewrite !hex_value_digit by (apply N.mod_lt; discriminate).
  rewrite nibbles by exact H. reflexivity.
Qed.

Lemma lor_shiftl_low a b k : b < 2 ^ k -> N.lor (N.shiftl a k) b = N.shiftl a k + b.
Proof.
  intros Hb.
  assert (Hland : N.land (N.shiftl a k) b = 0).
  { apply N.bits_inj. intros i. rewrite N.land_spec, N.bits_0.
    destruct (N.lt_ge_cases i k) as [Hi|Hi].
    - rewrite N.shiftl_spec_low by exact Hi. reflexivity.
    - rewrite <- (N.mod_small b (2 ^ k)) by exact Hb.
      rewrite N.mod_pow2_bits_high by exact Hi. apply andb_false_r. }
  rewrite N.add_nocarry_lxor by exact Hland.
  symmetry. apply N.lxor_lor. exact Hland.
Qed.


Lemma surrogate_halves c :
  0x10000 <= c -> c < 0x110000 ->
  let n := c - 0x10000 in
  N.lor 0xd800 (N.land (N.shiftr n 10) 0x3ff) = 0xd800 + n / 1024 /\
  N.lor 0xdc00 (N.land n 0x3ff) = 0xdc00 + n mod 1024.
Proof.
  intros Hlo Hhi n.
  assert (Hn : n < 1048576) by (unfold n; lia).
  change 0x3ff with (N.ones 10). rewrite !N.land_ones, N.shiftr_div_pow2.
  change (2 ^ 10) with 1024.
  assert (Hq : n / 1024 < 1024) by div_lia.
  rewrite (N.mod_small (n / 1024)) by exact Hq.
  change 0xd800 with (N.shiftl 54 10). change 0xdc00 with (N.shiftl 55 10).
  rewrite !lor_shiftl_low; [split; reflexivity | | ].
  - change (2 ^ 10) with 1024. apply N.mod_lt. discriminate.
  - exact Hq.
Qed.

Lemma surrogates_join hi lo :
  hi < 1024 -> lo < 1024 ->
  N.lor (N.shiftl (0xd800 + hi - 0xd800) 10) (0xdc00 + lo - 0xdc00) = hi * 1024 + lo.
Proof.
  intros Hhi Hlo.
  replace (0xd800 + hi - 0xd800) with hi by lia.
  replace (0xdc00 + lo - 0xdc00) with lo by lia.
  rewrite lor_shiftl_low by exact Hlo.
  rewrite N.shiftl_mul_pow2. reflexivity.
Qed.

Lemma high_not_low c : is_high_surrogate c = true -> is_low_surrogate c = false.
Proof.
  unfold is_high_surrogate, is_low_surrogate. intros H.
  apply andb_true_iff in H as [_ H]. apply N.leb_le in H.
  apply andb_false_iff. left. apply N.leb_gt. lia.
Qed.

(** The four shapes of an escaped character. *)
Lemma escape_char_cases c :
  c < 0x110000 ->
  (exists x, escape_char c = [92; x] /\ x <> 117 /\ backslash x = Some c) \/
  (escape_char c = [c] /\ c <> 34 /\ c <> 92 /\ 32 <= c) \/
  (escape_char c = u_escape c /\ c < 0x10000) \/
  (exists s1 s2,
     escape_char c = u_escape s1 ++ u_escape s2 /\
     is_high_surrogate s1 = true /\ is_low_surrogate s2 = true /\
     s1 < 0x10000 /\ s2 < 0x10000 /\
     0x10000 + N.lor (N.shiftl (s1 - 0xd800) 10) (s2 - 0xdc00) = c).
Proof.
  intros Hc. unfold escape_char.
  destruct (N.eqb_spec c 92) as [->|H92];
    [left; exists 92; repeat split; discriminate|].
  destruct (N.eqb_spec c 34) as [->|H34];
    [left; exists 34; repeat split; discriminate|].
  destruct (N.eqb_spec c 8) as [->|H8];
    [left; exists 98; repeat split; discriminate|].
  destruct (N.eqb_spec c 12) as [->|H12];
    [left; exists 102; repeat split; discriminate|].
  destruct (N.eqb_spec c 10) as [->|H10];
    [left; exists 110; repeat split; discriminate|].
  destruct (N.eqb_spec c 13) as [->|H13];
    [left; exists 114; repeat split; discriminate|].
  destruct (N.eqb_spec c 9) as [->|H9];
    [left; exists 116; repeat split; discriminate|].
  destruct ((32 <=? c) && (c <=? 126)) eqn:Hp.
  { apply andb_true_iff in Hp as [Hp _]. apply N.leb_le in Hp.
    right; left. auto. }
  destruct (N.ltb_spec c 0x10000) as [Hs|Hs]; [right; right; left; auto|].
  right; right; right.
  destruct (surrogate_halves c Hs Hc) as [-> ->].
  set (n := c - 0x10000).
  assert (Hn : n < 1048576) by (unfold n; lia).
  assert (Hq : n / 1024 < 1024) by div_lia.
  assert (Hr : n mod 1024 < 1024) by (apply N.mod_lt; discriminate).
  eexists _, _. split; [reflexivity|].
  unfold is_high_surrogate, is_low_surrogate.
  repeat split.
  - apply andb_true_iff; split; apply N.leb_le; div_lia.
  - apply andb_true_iff; split; apply N.leb_le; div_lia.
  - div_lia.
  - div_lia.
  - rewrite surrogates_join by assumption.
    unfold n in *. div_lia.
Qed.

Lemma escape_char_nonempty c : c < 0x110000 -> (0 < length (escape_char c))%nat.
Proof.
  intros Hc.
  destruct (escape_char_cases c Hc)
    as [(x & -> & _)|[(-> & _)|[(-> & _)|(s1 & s2 & -> & _)]]]; cbn; lia.
Qed.

Lemma scanstring_char c tail fuel :
  c < 0x110000 ->
  (is_high_surrogate c = true -> join_surrogates c tail = Some (c, tail)) ->
  scanstring (S fuel) (escape_char c ++ tail) =
    match scanstring fuel tail with
    | Some (str, r) => Some (c :: str, r)
    | None => None
    end.
Proof.
  intros Hc Hjoin.
  destruct (escape_char_cases c Hc)
    as [(x & -> & Hx & Hb)|[(-> & H34 & H92 & H32)|[(-> & Hs)|
        (s1 & s2 & -> & Hh & Hl & Hs1 & Hs2 & Hjoined)]]].
  - cbn [app scanstring]. change (92 =? 34) with false. change (92 =? 92) with true.
    cbv iota. apply N.eqb_neq in Hx. rewrite Hx, Hb. reflexivity.
  - cbn [app scanstring].
    apply N.eqb_neq in H34, H92. rewrite H34, H92.
    assert (H : (c <? 32) = false) by (apply N.ltb_ge; exact H32).
    rewrite H. reflexivity.
  - unfold u_escape. cbn [app scanstring].
    change (92 =? 34) with false. change (92 =? 92) with true.
    change (117 =? 117) with true. cbv iota.
    rewrite decode_hex4 by exact Hs.
    destruct (is_high_surrogate c) eqn:Hhigh.
    + rewrite Hjoin by reflexivity. reflexivity.
    + unfold join_surrogates. rewrite Hhigh. reflexivity.
  - unfold u_escape. rewrite <- !app_assoc. cbn [app scanstring].
    change (92 =? 34) with false. change (92 =? 92) with true.
    change (117 =? 117) with true. cbv iota.
    rewrite decode_hex4 by exact Hs1.
    unfold join_surrogates. rewrite Hh.
    cbn [py map list_ascii_of_string strip_prefix].
    change (N_of_ascii "\") with 92. change (N_of_ascii "u") with 117.
    change (92 =? 92) with true. change (117 =? 117) with true. cbv iota.
    rewrite decode_hex4 by exact Hs2.
    rewrite Hl, Hjoined. reflexivity.
Qed.

Lemma join_surrogates_body c s rest :
  is_high_surrogate c = true ->
  code_points s = true ->
  match s with d :: _ => is_low_surrogate d = false | [] => True end ->
  join_surrogates c (flat_map escape_char s ++ 34 :: rest) =
    Some (c, flat_map escape_char s ++ 34 :: rest).
Proof.
  intros Hc Hs Hd. unfold join_surrogates. rewrite Hc.
  cbn [py map list_ascii_of_string].
  change (N_of_ascii "\") with 92. change (N_of_ascii "u") with 117.
  destruct s as [|d s]; [reflexivity|].
  cbn [code_points forallb] in Hs. apply andb_true_iff in Hs as [Hlt _].
  apply N.ltb_lt in Hlt.
  cbn [flat_map]. rewrite <- app_assoc.
  destruct (escape_char_cases d Hlt)
    as [(x & -> & Hx & Hb)|[(-> & H34 & H92 & H32)|[(-> & Hsm)|
        (s1 & s2 & -> & Hh & Hl & Hs1 & Hs2 & Hjoined)]]].
  - cbn [app strip_prefix]. change (92 =? 92) with true. cbv iota.
    assert (H : (117 =? x) = false) by (apply N.eqb_neq; congruence).
    rewrite H. reflexivity.
  - cbn [app strip_prefix].
    assert (H : (92 =? d) = false) by (apply N.eqb_neq; congruence).
    rewrite H. reflexivity.
  - unfold u_escape. cbn [app strip_prefix].
    change (92 =? 92) with true. change (117 =? 117) with true. cbv iota.
    rewrite decode_hex4 by exact Hsm. rewrite Hd. reflexivity.
  - unfold u_escape. rewrite <- !app_assoc. cbn [app strip_prefix].
    change (92 =? 92) with true. change (117 =? 117) with true. cbv iota.
    rewrite decode_hex4 by exact Hs1. rewrite (high_not_low s1 Hh). reflexivity.
Qed.

Lemma plain_str_cons c s :
  plain_str (c :: s) = true ->
  c < 0x110000 /\ plain_str s = true /\
  (is_high_surrogate c = true ->
   match s with d :: _ => is_low_surrogate d = false | [] => True end).
Proof.
  unfold plain_str. cbn [code_points forallb no_surrogate_pair]. intros H.
  apply andb_true_iff in H as [H1 H2].
  apply andb_true_iff in H1 as [Hc Hs].
  apply andb_true_iff in H2 as [Hp Hn].
  apply N.ltb_lt in Hc. unfold code_points. rewrite Hs, Hn.
  repeat split; [exact Hc|]. intros Hh.
  destruct s as [|d s]; [exact I|].
  rewrite Hh in Hp. cbn in Hp. destruct (is_low_surrogate d); [discriminate|reflexivity].
Qed.

(** The decoder reads an escaped string body back, up to the closing
    quote. *)
Lemma scanstring_body s : forall fuel rest,
  plain_str s = true ->
  (length (flat_map escape_char s) < fuel)%nat ->
  scanstring fuel (flat_map escape_char s ++ 34 :: rest) = Some (s, rest).
Proof.
  induction s as [|c s IH]; intros fuel rest Hs Hfuel.
  - destruct fuel; [lia|]. reflexivity.
  - destruct fuel as [|fuel]; [lia|].
    apply plain_str_cons in Hs as (Hc & Hs & Hpair).
    cbn [flat_map] in *. rewrite <- app_assoc.
    rewrite length_app in Hfuel.
    pose proof (escape_char_nonempty c Hc) as Hlen.
    rewrite scanstring_char.
    + rewrite IH by (assumption || lia). reflexivity.
    + exact Hc.
    + intros Hh. apply join_surrogates_body; [exact Hh| |exact (Hpair Hh)].
      unfold plain_str in Hs. apply andb_true_iff in Hs as [Hs _]. exact Hs.
Qed.

End Strings.

Section Numbers.
Import Json.
Local Open Scope N_scope.

Lemma stop_cases rest :
  stop rest = true ->
  rest = [] \/ exists c t, rest = c :: t /\ (c = 44 \/ c = 93 \/ c = 125).
Proof.
  destruct rest as [|c t]; [auto|]. cbn [stop]. intros H. right. exists c, t.
  split; [reflexivity|].
  apply orb_true_iff in H as [H|H]; [apply orb_true_iff in H as [H|H]|];
    apply N.eqb_eq in H; auto.
Qed.

Lemma stop_not_number rest :
  stop rest = true ->
  has_frac rest = false /\ has_exp rest = false /\
  match rest with c :: _ => is_digit c = false | [] => True end.
Proof.
  intros H. destruct (stop_cases rest H) as [Hr|(c & t & Hr & [Hc|[Hc|Hc]])];
    subst; repeat split; destruct t; reflexivity.
Qed.

Lemma take_digits_uint_chars u rest :
  match rest with c :: _ => is_digit c = false | [] => True end ->
  take_digits (uint_chars u ++ rest) = (u, rest).
Proof.
  intros Hrest.
  induction u as [|u IH|u IH|u IH|u IH|u IH|u IH|u IH|u IH|u IH|u IH];
    cbn [uint_chars app take_digits];
    try (change (is_digit (digit_char _)) with true; cbv iota; rewrite IH; reflexivity).
  destruct rest as [|c t]; [reflexivity|]. cbn [take_digits]. rewrite Hrest. reflexivity.
Qed.

Lemma to_uint_normal p : unorm (Pos.to_uint p) = Pos.to_uint p.
Proof.
  pose proof (DecimalPos.Unsigned.to_of (Pos.to_uint p)) as H.
  rewrite DecimalPos.Unsigned.of_to in H. symmetry. exact H.
Qed.

Lemma to_uint_no_leading_zero p u : Pos.to_uint p <> D0 u.
Proof.
  intros H. pose proof (to_uint_normal p) as Hn. rewrite H in Hn.
  rewrite unorm_D0 in Hn.
  destruct (uint_eq_dec u Nil) as [->|Hu].
  - apply (DecimalPos.Unsigned.to_uint_nonzero p). exact H.
  - pose proof (nb_digits_unorm u Hu) as Hd. rewrite Hn in Hd.
    cbn [nb_digits] in Hd. lia.
Qed.

Lemma scan_digits p rest :
  stop rest = true ->
  exists c t,
    uint_chars (Pos.to_uint p) ++ rest = c :: t /\
    is_digit c = true /\ c <> 48 /\
    take_digits (c :: t) = (Pos.to_uint p, rest).
Proof.
  intros Hstop. destruct (stop_not_number rest Hstop) as (_ & _ & Hd).
  pose proof (take_digits_uint_chars (Pos.to_uint p) rest Hd) as Htake.
  pose proof (to_uint_no_leading_zero p) as Hz.
  pose proof (DecimalPos.Unsigned.to_uint_nonnil p) as Hnil.
  destruct (Pos.to_uint p) as [|u|u|u|u|u|u|u|u|u|u];
    [congruence | exfalso; eapply Hz; reflexivity | ..];
    cbn [uint_chars app] in *; eexists _, _; (split; [reflexivity|]);
    repeat split; try discriminate; exact Htake.
Qed.

Lemma scan_number_int z rest :
  stop rest = true ->
  scan_number (int_repr z ++ rest) = Some (PyInt z, rest).
Proof.
  intros Hstop. destruct (stop_not_number rest Hstop) as (Hf & He & _).
  destruct z as [|p|p]; [|unfold int_repr..].
  - change (int_repr 0 ++ rest) with (48 :: rest). unfold scan_number.
    change (48 =? 45) with false. cbv beta iota zeta.
    change (is_digit 48) with true. change (48 =? 48) with true.
    cbv beta iota zeta. rewrite Hf, He. reflexivity.
  - cbn [Z.ltb Z.compare app Z.abs_N N.to_uint].
    destruct (scan_digits p rest Hstop) as (c & t & -> & Hc & H0 & Htake).
    unfold scan_number.
    assert (H45 : (c =? 45) = false).
    { apply N.eqb_neq. intros ->. discriminate Hc. }
    rewrite H45, Hc. apply N.eqb_neq in H0. rewrite H0, Htake, Hf, He.
    cbn [orb]. unfold N.of_uint. rewrite DecimalPos.Unsigned.of_to. reflexivity.
  - cbn [Z.ltb Z.compare app Z.abs_N N.to_uint].
    destruct (scan_digits p rest Hstop) as (c & t & -> & Hc & H0 & Htake).
    unfold scan_number. change (45 =? 45) with true. cbv iota.
    rewrite Hc. apply N.eqb_neq in H0. rewrite H0, Htake, Hf, He.
    cbn [orb]. unfold N.of_uint. rewrite DecimalPos.Unsigned.of_to. reflexivity.
Qed.

Lemma int_repr_head z rest :
  exists c t, int_repr z ++ rest = c :: t /\ (is_digit c = true \/ c = 45).
Proof.
  destruct z as [|p|p]; unfold int_repr;
    cbn [Z.ltb Z.compare app Z.abs_N N.to_uint].
  - eexists _, _. split; [reflexivity|]. left. reflexivity.
  - pose proof (DecimalPos.Unsigned.to_uint_nonnil p) as Hnil.
    destruct (Pos.to_uint p); [congruence|..]; cbn [uint_chars app];
      eexists _, _; (split; [reflexivity|]); left; reflexivity.
  - eexists _, _. split; [reflexivity|]. right. reflexivity.
Qed.

Lemma scan_once_number fuel c r :
  is_digit c = true \/ c = 45 ->
  scan_once (S fuel) (c :: r) = scan_number (c :: r).
Proof.
  intros H.
  assert (Hc : c <> 34 /\ c <> 123 /\ c <> 91 /\ c <> 110 /\ c <> 116 /\ c <> 102).
  { destruct H as [H| ->]; [|repeat split; discriminate].
    unfold is_digit in H. apply andb_true_iff in H as [H1 H2].
    apply N.leb_le in H1, H2. lia. }
  destruct Hc as (H1 & H2 & H3 & H4 & H5 & H6).
  cbn [scan_once].
  change (py "null") with [110; 117; 108; 108].
  change (py "true") with [116; 114; 117; 101].
  change (py "false") with [102; 97; 108; 115; 101].
  cbn [strip_prefix].
  apply N.eqb_neq in H1, H2, H3.
  rewrite H1, H2, H3.
  assert (E4 : (110 =? c) = false) by (apply N.eqb_neq; congruence).
  assert (E5 : (116 =? c) = false) by (apply N.eqb_neq; congruence).
  assert (E6 : (102 =? c) = false) by (apply N.eqb_neq; congruence).
  rewrite E4, E5, E6. reflexivity.
Qed.

End Numbers.

Section Containers.
Import Json.
Local Open Scope N_scope.

Lemma value_head_facts c :
  value_head c = true ->
  is_ws c = false /\ (c =? 93) = false /\ (c =? 125) = false /\ (c =? 0xfeff) = false.
Proof.
  unfold value_head. intros H.
  repeat (apply orb_true_iff in H as [H|H]);
    try (apply N.eqb_eq in H; subst c; repeat split; reflexivity).
  unfold is_digit in H. apply andb_true_iff in H as [H1 H2].
  apply N.leb_le in H1, H2. unfold is_ws.
  repeat split; repeat (apply orb_false_iff; split); apply N.eqb_neq; lia.
Qed.

Lemma skip_ws_value text rest :
  starts_value text -> skip_ws (text ++ rest) = text ++ rest.
Proof.
  intros (c & t & -> & Hc). apply value_head_facts in Hc as (Hws & _).
  cbn [app skip_ws]. rewrite Hws. reflexivity.
Qed.

Lemma skip_ws_stop rest : stop rest = true -> skip_ws rest = rest.
Proof.
  intros H. destruct (stop_cases rest H) as [Hr|(c & t & Hr & [Hc|[Hc|Hc]])];
    subst; reflexivity.
Qed.

Lemma join_cons2 sep (p q : pystr) ps : join sep (p :: q :: ps) = p ++ sep ++ join sep (q :: ps).
Proof. reflexivity. Qed.

Lemma join_starts sep p ps : starts_value p -> starts_value (join sep (p :: ps)).
Proof.
  intros (c & t & -> & Hc). destruct ps as [|q ps].
  - exists c, t. auto.
  - rewrite join_cons2. exists c, (t ++ sep ++ join sep (q :: ps)). auto.
Qed.

Lemma skip_ws_space s : skip_ws (32 :: s) = skip_ws s.
Proof. reflexivity. Qed.

Lemma skip_ws_keep c s : is_ws c = false -> skip_ws (c :: s) = c :: s.
Proof. intros H. cbn [skip_ws]. rewrite H. reflexivity. Qed.

(** The array loop reads back the joined chunks of a non-empty list. *)
Lemma array_loop_reads scan (l : list PyVal) (chunks : list pystr) :
  Forall2 (fun x text =>
             starts_value text /\
             forall rest, stop rest = true -> scan (text ++ rest) = Some (x, rest))
          l chunks ->
  l <> [] ->
  forall n rest, (length l <= n)%nat ->
    array_loop scan n (join (py ", ") chunks ++ 93 :: rest) = Some (l, rest).
Proof.
  induction 1 as [|x text l chunks [Hhead Hscan] Hrest IH]; [congruence|].
  intros _ n rest Hn. destruct n as [|n]; [cbn in Hn; lia|].
  destruct Hrest as [|y text' l chunks Hy Hrest].
  - cbn [join array_loop]. rewrite Hscan by reflexivity.
    rewrite skip_ws_keep by reflexivity.
    change (93 =? 93) with true. reflexivity.
  - rewrite join_cons2. rewrite <- !app_assoc.
    change (py ", " ++ ?t) with (44 :: 32 :: t).
    cbn [array_loop]. rewrite Hscan by reflexivity.
    rewrite skip_ws_keep by reflexivity.
    change (44 =? 93) with false. change (44 =? 44) with true. cbv iota.
    rewrite skip_ws_space.
    rewrite skip_ws_value by (apply join_starts; apply Hy).
    rewrite IH; [reflexivity|discriminate|cbn [length] in *; lia].
Qed.

(** The object loop reads back the joined items of a non-empty dict whose
    keys are strings. *)
Lemma object_loop_reads scan (items : list (PyVal * PyVal)) (chunks : list pystr) :
  Forall2 (fun kv chunk =>
             exists k text,
               fst kv = PyStr k /\ plain_str k = true /\
               chunk = encode_basestring_ascii k ++ py ": " ++ text /\
               starts_value text /\
               forall rest, stop rest = true -> scan (text ++ rest) = Some (snd kv, rest))
          items chunks ->
  items <> [] ->
  forall n rest, (length items <= n)%nat ->
    exists t,
      join (py ", ") chunks ++ 125 :: rest = 34 :: t /\
      object_loop scan n t = Some (items, rest).
Proof.
  induction 1 as [|[k' x] chunk items chunks Hkv Hrest IH]; [congruence|].
  intros _ n rest Hn. destruct n as [|n]; [cbn in Hn; lia|].
  destruct Hkv as (k & text & Hk & Hplain & -> & Hhead & Hscan).
  cbn [fst snd] in Hk, Hscan. subst k'.
  assert (Hkey : forall tail,
    scanstring (length (flat_map escape_char k ++ 34 :: tail))
      (flat_map escape_char k ++ 34 :: tail) = Some (k, tail)).
  { intros tail. apply scanstring_body; [exact Hplain|].
    rewrite length_app. cbn [length]. lia. }
  destruct Hrest as [|[k2 y] chunk2 items chunks Hy Hrest].
  - eexists. split.
    + cbn [join]. unfold encode_basestring_ascii.
      rewrite <- !app_assoc. cbn [app]. reflexivity.
    + cbn [object_loop]. rewrite Hkey.
      change (py ": " ++ ?u) with (58 :: 32 :: u).
      rewrite skip_ws_keep by reflexivity.
      change (58 =? 58) with true. cbv iota.
      rewrite skip_ws_space, skip_ws_value by exact Hhead.
      rewrite Hscan by reflexivity.
      rewrite skip_ws_keep by reflexivity.
      change (125 =? 125) with true. reflexivity.
  - destruct (IH ltac:(discriminate) n rest ltac:(cbn [length] in *; lia))
      as (t & Ht & Hloop).
    eexists. split.
    + rewrite join_cons2. unfold encode_basestring_ascii.
      rewrite <- !app_assoc. cbn [app]. reflexivity.
    + cbn [object_loop]. rewrite Hkey.
      change (py ": " ++ ?u) with (58 :: 32 :: u).
      rewrite skip_ws_keep by reflexivity.
      change (58 =? 58) with true. cbv iota.
      rewrite skip_ws_space, skip_ws_value by exact Hhead.
      change (py ", " ++ ?u) with (44 :: 32 :: u).
      rewrite Hscan by reflexivity.
      rewrite skip_ws_keep by reflexivity.
      change (44 =? 125) with false. change (44 =? 44) with true. cbv iota.
      rewrite skip_ws_space, Ht.
      rewrite skip_ws_keep by reflexivity.
      change (34 =? 34) with true. cbv iota.
      rewrite Hloop. reflexivity.
Qed.

End Containers.

Section RoundTrip.
Import Json.

Lemma dict_set_fresh d k v :
  forallb (fun kv => negb (py_eqb (fst kv) k)) d = true ->
  dict_set d k v = d ++ [(k, v)].
Proof.
  induction d as [|[k' v'] d IH]; cbn [forallb dict_set fst app]; [reflexivity|].
  intros H. apply andb_true_iff in H as [Hk Hd].
  apply negb_true_iff in Hk. rewrite Hk, IH by exact Hd. reflexivity.
Qed.

Lemma dict_of_pairs_from acc items :
  forallb (fun kv => negb (existsb (fun kv' => py_eqb (fst kv) (fst kv')) items)) acc = true ->
  distinct_keys items = true ->
  fold_left (fun d kv => dict_set d (fst kv) (snd kv)) items acc = acc ++ items.
Proof.
  revert acc. induction items as [|[k v] items IH]; intros acc Hacc Hd.
  - cbn. rewrite app_nil_r. reflexivity.
  - cbn [fold_left fst snd]. cbn [distinct_keys fst] in Hd.
    apply andb_true_iff in Hd as [Hk Hd].
    rewrite dict_set_fresh.
    + rewrite IH; [rewrite <- app_assoc; reflexivity| |exact Hd].
      rewrite forallb_app. apply andb_true_iff. split.
      * apply forallb_forall. intros kv Hin.
        eapply forallb_forall in Hacc; [|exact Hin].
        cbn [existsb fst] in Hacc. apply negb_true_iff in Hacc.
        apply orb_false_iff in Hacc as [_ Hacc]. rewrite Hacc. reflexivity.
      * cbn [forallb fst]. rewrite Hk. reflexivity.
    + apply forallb_forall. intros kv Hin.
      eapply forallb_forall in Hacc; [|exact Hin].
      cbn [existsb fst] in Hacc. apply negb_true_iff in Hacc.
      apply orb_false_iff in Hacc as [Hacc _]. rewrite Hacc. reflexivity.
Qed.

Lemma dict_of_pairs_distinct items :
  distinct_keys items = true -> dict_of_pairs items = items.
Proof. intros H. unfold dict_of_pairs. rewrite dict_of_pairs_from; auto. Qed.

Lemma sum_cons a r : list_sum (a :: r) = a + list_sum r.
Proof. reflexivity. Qed.

Lemma length_le_sum {A} (f : A -> nat) (l : list A) :
  length l <= list_sum (map (fun x => S (f x)) l).
Proof.
  induction l as [|x l IH]; [cbn; lia|].
  cbn [map length]. rewrite sum_cons. lia.
Qed.

Lemma size_list l : size (PyList l) = S (list_sum (map (fun x => S (size x)) l)).
Proof.
  cbn [size]. f_equal. induction l as [|x l IH]; [reflexivity|].
  cbn [map]. change (list_sum (?a :: ?r)) with (a + list_sum r).
  rewrite <- IH. reflexivity.
Qed.

Lemma size_dict items :
  size (PyDict items) = S (list_sum (map (fun kv => S (size (snd kv))) items)).
Proof.
  cbn [size]. f_equal. induction items as [|x l IH]; [reflexivity|].
  cbn [map]. change (list_sum (?a :: ?r)) with (a + list_sum r).
  rewrite <- IH. reflexivity.
Qed.

Lemma reads_back_starts v text : reads_back v text -> starts_value text.
Proof. intros [H _]. exact H. Qed.

Lemma traverse_reads l :
  Forall (fun x => json_native x = true ->
                   exists text, encode x = Ok text /\ reads_back x text) l ->
  forallb json_native l = true ->
  exists chunks, traverse encode l = Ok chunks /\ Forall2 reads_back l chunks.
Proof.
  induction 1 as [|x l Hx _ IH]; cbn [forallb traverse]; intros Hn.
  - exists []. split; [reflexivity|constructor].
  - apply andb_true_iff in Hn as [Hnx Hnl].
    destruct (Hx Hnx) as (text & -> & Hr).
    destruct (IH Hnl) as (chunks & -> & HF).
    eexists. split; [reflexivity|]. constructor; assumption.
Qed.

Lemma joined_length l chunks :
  Forall2 reads_back l chunks ->
  list_sum (map (fun x => S (size x)) l) <= S (length (join (py ", ") chunks)).
Proof.
  induction 1 as [|x text l chunks (_ & Hx & _) Hrest IH]; [cbn; lia|].
  destruct Hrest as [|y text' l chunks Hy Hrest].
  - cbn [map join]. rewrite sum_cons. cbn [list_sum foldr]. lia.
  - rewrite join_cons2. cbn [map] in *. rewrite !sum_cons in *.
    rewrite !length_app. change (length (py ", ")) with 2. lia.
Qed.

Lemma reads_back_scans f l chunks :
  Forall2 reads_back l chunks ->
  list_sum (map (fun x => S (size x)) l) <= f ->
  Forall2 (fun x text =>
             starts_value text /\
             forall rest, stop rest = true -> scan_once f (text ++ rest) = Some (x, rest))
          l chunks.
Proof.
  induction 1 as [|x text l chunks (Hh & _ & Hx) Hrest IH]; cbn [map].
  - intros _. constructor.
  - rewrite sum_cons. intros Hf. constructor; [|apply IH; lia].
    split; [exact Hh|]. intros rest Hrest'. apply Hx; [lia|exact Hrest'].
Qed.

Lemma reads_back_list l chunks :
  Forall2 reads_back l chunks ->
  reads_back (PyList l) (py "[" ++ join (py ", ") chunks ++ py "]").
Proof.
  intros HF. pose proof (joined_length l chunks HF) as Hlen.
  change (py "[" ++ ?t) with (91%N :: t). change (py "]") with [93%N].
  unfold reads_back. rewrite size_list. split; [|split].
  - eexists _, _. split; reflexivity.
  - cbn [length]. rewrite length_app. cbn [length]. lia.
  - intros fuel rest Hfuel Hstop. destruct fuel as [|f]; [lia|].
    pose proof (reads_back_scans f l chunks HF ltac:(lia)) as Hscan.
    assert (Hl : length l <= f) by (pose proof (length_le_sum size l); lia).
    cbn [app]. rewrite <- app_assoc. cbn [app scan_once].
    change (91 =? 34)%N with false. change (91 =? 123)%N with false.
    change (91 =? 91)%N with true. cbv iota. unfold JSONArray.
    destruct HF as [|x text l chunks Hx HF].
    + cbn [join app]. rewrite skip_ws_keep by reflexivity.
      change (93 =? 93)%N with true. reflexivity.
    + pose proof (array_loop_reads (scan_once f) _ _ Hscan ltac:(discriminate) f rest Hl)
        as Hloop.
      assert (Hs : starts_value (join (py ", ") (text :: chunks)))
        by (apply join_starts; eapply reads_back_starts; exact Hx).
      rewrite skip_ws_value by exact Hs.
      destruct Hs as (c & t & Hj & Hc). rewrite Hj in *. cbn [app] in *.
      apply value_head_facts in Hc as (_ & Hc & _). rewrite Hc, Hloop. reflexivity.
Qed.

Lemma traverse_items_reads items :
  Forall (fun kv =>
            (json_native (fst kv) = true ->
             exists text, encode (fst kv) = Ok text /\ reads_back (fst kv) text) /\
            (json_native (snd kv) = true ->
             exists text, encode (snd kv) = Ok text /\ reads_back (snd kv) text)) items ->
  forallb (fun kv => match fst kv with PyStr k => plain_str k | _ => false end
                     && json_native (snd kv)) items = true ->
  exists chunks,
    traverse (fun kv =>
                match key_string (fst kv) with
                | Ok k =>
                    match encode (snd kv) with
                    | Ok v => Ok (encode_basestring_ascii k ++ py ": " ++ v)
                    | Raise e => Raise e
                    end
                | Raise e => Raise e
                end) items = Ok chunks /\
    Forall2 (fun kv chunk =>
               exists k text,
                 fst kv = PyStr k /\ plain_str k = true /\
                 chunk = encode_basestring_ascii k ++ py ": " ++ text /\
                 reads_back (snd kv) text) items chunks.
Proof.
  induction 1 as [|[k x] items [_ Hx] _ IH]; cbn [forallb traverse fst snd]; intros Hn.
  - exists []. split; [reflexivity|constructor].
  - apply andb_true_iff in Hn as [Hkx Hnl].
    apply andb_true_iff in Hkx as [Hk Hnx].
    destruct k as [ | | |k| | | | | ]; try discriminate Hk.
    cbn [fst snd key_string] in *.
    destruct (Hx Hnx) as (text & -> & Hr).
    destruct (IH Hnl) as (chunks & -> & HF).
    eexists. split; [reflexivity|]. constructor; [|exact HF].
    exists k, text. auto.
Qed.

Lemma joined_items_length items chunks :
  Forall2 (fun kv chunk =>
             exists k text,
               fst kv = PyStr k /\ plain_str k = true /\
               chunk = encode_basestring_ascii k ++ py ": " ++ text /\
               reads_back (snd kv) text) items chunks ->
  list_sum (map (fun kv => S (size (snd kv))) items) <= S (length (join (py ", ") chunks)).
Proof.
  induction 1 as [|kv chunk items chunks (k & text & _ & _ & -> & _ & Hx & _) Hrest IH];
    [cbn; lia|].
  assert (Hc : S (size (snd kv)) <=
               length (encode_basestring_ascii k ++ py ": " ++ text)).
  { unfold encode_basestring_ascii. rewrite !length_app.
    change (length (py ": ")) with 2. cbn [length]. lia. }
  destruct Hrest as [|kv' chunk' items chunks Hy Hrest].
  - cbn [map join]. rewrite sum_cons. cbn [list_sum foldr]. lia.
  - rewrite join_cons2. cbn [map] in *. rewrite !sum_cons in *.
    rewrite (length_app (encode_basestring_ascii k ++ py ": " ++ text)).
    rewrite (length_app (py ", ")). change (length (py ", ")) with 2. lia.
Qed.

Lemma items_scans f items chunks :
  Forall2 (fun kv chunk =>
             exists k text,
               fst kv = PyStr k /\ plain_str k = true /\
               chunk = encode_basestring_ascii k ++ py ": " ++ text /\
               reads_back (snd kv) text) items chunks ->
  list_sum (map (fun kv => S (size (snd kv))) items) <= f ->
  Forall2 (fun kv chunk =>
             exists k text,
               fst kv = PyStr k /\ plain_str k = true /\
               chunk = encode_basestring_ascii k ++ py ": " ++ text /\
               starts_value text /\
               forall rest, stop rest = true ->
                 scan_once f (text ++ rest) = Some (snd kv, rest))
          items chunks.
Proof.
  induction 1 as [|kv chunk items chunks (k & text & Hk & Hp & Hc & Hh & _ & Hx) Hrest IH];
    cbn [map].
  - intros _. constructor.
  - rewrite sum_cons. intros Hf. constructor; [|apply IH; lia].
    exists k, text. repeat split; try assumption.
    intros rest Hrest'. apply Hx; [lia|exact Hrest'].
Qed.

Lemma reads_back_dict items chunks :
  Forall2 (fun kv chunk =>
             exists k text,
               fst kv = PyStr k /\ plain_str k = true /\
               chunk = encode_basestring_ascii k ++ py ": " ++ text /\
               reads_back (snd kv) text) items chunks ->
  distinct_keys items = true ->
  reads_back (PyDict items) (py "{" ++ join (py ", ") chunks ++ py "}").
Proof.
  intros HF Hd. pose proof (joined_items_length items chunks HF) as Hlen.
  change (py "{" ++ ?t) with (123%N :: t). change (py "}") with [125%N].
  unfold reads_back. rewrite size_dict. split; [|split].
  - eexists _, _. split; reflexivity.
  - cbn [length]. rewrite length_app. cbn [length]. lia.
  - intros fuel rest Hfuel Hstop. destruct fuel as [|f]; [lia|].
    pose proof (items_scans f items chunks HF ltac:(lia)) as Hscan.
    assert (Hl : length items <= f)
      by (pose proof (length_le_sum (fun kv => size (snd kv)) items); lia).
    cbn [app]. rewrite <- app_assoc. cbn [app scan_once].
    change (123 =? 34)%N with false. change (123 =? 123)%N with true.
    cbv iota. unfold JSONObject.
    destruct HF as [|kv chunk items chunks Hx HF].
    + cbn [join app]. rewrite skip_ws_keep by reflexivity.
      change (125 =? 125)%N with true. reflexivity.
    + destruct (object_loop_reads (scan_once f) _ _ Hscan ltac:(discriminate) f rest Hl)
        as (t & -> & Hloop).
      rewrite skip_ws_keep by reflexivity.
      change (34 =? 125)%N with false. change (34 =? 34)%N with true. cbv iota.
      rewrite Hloop, dict_of_pairs_distinct by exact Hd. reflexivity.
Qed.

(** Every value of JSON's data model is encoded to a text that the
    scanner reads back to that value. *)
Lemma encode_reads_back v :
  json_native v = true -> exists text, encode v = Ok text /\ reads_back v text.
Proof.
  induction v as [ | b | z | s | l IH | l IH | items IH | l IH | b]
    using PyVal_induction; cbn [json_native]; intros Hn; try discriminate Hn.
  - exists (py "null"). split; [reflexivity|]. split; [|split].
    + eexists _, _. split; reflexivity.
    + cbn. lia.
    + intros [|f] rest Hf _; [cbn in Hf; lia|]. reflexivity.
  - destruct b.
    + exists (py "true"). split; [reflexivity|]. split; [|split].
      * eexists _, _. split; reflexivity.
      * cbn. lia.
      * intros [|f] rest Hf _; [cbn in Hf; lia|]. reflexivity.
    + exists (py "false"). split; [reflexivity|]. split; [|split].
      * eexists _, _. split; reflexivity.
      * cbn. lia.
      * intros [|f] rest Hf _; [cbn in Hf; lia|]. reflexivity.
  - exists (int_repr z). split; [reflexivity|].
    destruct (int_repr_head z []) as (c & t & Hct & Hc). rewrite app_nil_r in Hct.
    split; [|split].
    + exists c, t. split; [exact Hct|]. unfold value_head.
      destruct Hc as [->| ->]; [rewrite !orb_true_r|]; reflexivity.
    + rewrite Hct. cbn. lia.
    + intros [|f] rest Hf Hstop; [cbn in Hf; lia|].
      rewrite <- (scan_number_int z rest Hstop).
      rewrite Hct. cbn [app]. apply scan_once_number. exact Hc.
  - exists (encode_basestring_ascii s). split; [reflexivity|].
    unfold encode_basestring_ascii. split; [|split].
    + eexists _, _. split; reflexivity.
    + cbn. lia.
    + intros [|f] rest Hf _; [cbn in Hf; lia|].
      rewrite <- !app_assoc. cbn [app scan_once].
      change (34 =? 34)%N with true. cbv iota.
      rewrite scanstring_body; [reflexivity|exact Hn|].
      rewrite length_app. cbn [length]. lia.
  - destruct (traverse_reads l IH Hn) as (chunks & Hc & HF).
    cbn [encode]. rewrite Hc. eexists. split; [reflexivity|].
    apply reads_back_list. exact HF.
  - apply andb_true_iff in Hn as [Hn Hd].
    destruct (traverse_items_reads items IH Hn) as (chunks & Hc & HF).
    cbn [encode]. rewrite Hc. eexists. split; [reflexivity|].
    apply reads_back_dict; assumption.
Qed.

(** [json.loads(json.dumps(v)) == v], and with the very same value, for
    every [v] of JSON's data model. *)
Lemma loads_dumps v :
  json_native v = true -> exists text, dumps v = Ok text /\ loads text = Some v.
Proof.
  intros Hn. destruct (encode_reads_back v Hn) as (text & He & Hh & Hsize & Hscan).
  exists text. split; [exact He|]. unfold loads.
  pose proof (skip_ws_value text [] Hh) as Hws. rewrite app_nil_r in Hws.
  destruct Hh as (c & t & -> & Hc).
  apply value_head_facts in Hc as (_ & _ & _ & Hbom). rewrite Hbom, Hws.
  specialize (Hscan (S (length (c :: t))) [] ltac:(lia) eq_refl).
  rewrite app_nil_r in Hscan. rewrite Hscan. reflexivity.
Qed.

(** *** Python equality on the values of JSON's data model *)




End RoundTrip.

(** ** Environment variable specifications *)

Section EnvFacts.
Import Env.

(** C9. With neither a value nor an input reference, [EnvSpec.build]
    returns a variable whose value is the text [null], four characters
    long: the JSON encoding of [None]. *)
Theorem build_of_unset_value_is_null (e : EnvSpec.t) :
  EnvSpec.value e = PyNone ->
  EnvSpec.value_from_input e = None ->
  EnvSpec.build e =
    Ok {| ev_name := EnvSpec.name e;
          ev_value := Some [110; 117; 108; 108]%N;
          ev_value_from := None |}
  /\ Json.dumps PyNone = Ok [110; 117; 108; 108]%N.
Proof.
  intros Hv Hi. unfold EnvSpec.build. rewrite Hv, Hi. split; reflexivity.
Qed.

Lemma build_of_unset_value_is_null_witness :
  EnvSpec.build {| EnvSpec.name := py "HOME"; EnvSpec.value := PyNone;
                   EnvSpec.value_from_input := None |} =
    Ok {| ev_name := py "HOME"; ev_value := Some (py "null"); ev_value_from := None |}.
Proof.
  apply (build_of_unset_value_is_null
           {| EnvSpec.name := py "HOME"; EnvSpec.value := PyNone;
              EnvSpec.value_from_input := None |}); reflexivity.
Defined.

(** C10. The secret and config-map variants build a variable that
    carries the name and the one source reference of the variant and
    nothing else: no literal value, and the same variable whatever [value]
    and [value_from_input] the object holds.  The field variant does the
    same when its [api_version] is a string; when it is [None], which its
    annotation [Optional[str]] allows, [build] returns no variable: the
    constructor of [ObjectFieldSelector] raises [ApiTypeError]. *)
Theorem source_variants_ignore_value :
  (forall s : SecretEnvSpec.t,
     SecretEnvSpec.build s =
       {| ev_name := SecretEnvSpec.name s;
          ev_value := None;
          ev_value_from :=
            Some {| secret_key_ref :=
                      Some {| sks_name := SecretEnvSpec.secret_name s;
                              sks_key := SecretEnvSpec.secret_key s |};
                    config_map_key_ref := None;
                    field_ref := None |} |}) /\
  (forall s : ConfigMapEnvSpec.t,
     ConfigMapEnvSpec.build s =
       {| ev_name := ConfigMapEnvSpec.name s;
          ev_value := None;
          ev_value_from :=
            Some {| secret_key_ref := None;
                    config_map_key_ref :=
                      Some {| cmks_name := ConfigMapEnvSpec.config_map_name s;
                              cmks_key := ConfigMapEnvSpec.config_map_key s |};
                    field_ref := None |} |}) /\
  (forall (s : FieldEnvSpec.t) version,
     FieldEnvSpec.api_version s = Some version ->
     FieldEnvSpec.build s =
       Ok {| ev_name := FieldEnvSpec.name s;
             ev_value := None;
             ev_value_from :=
               Some {| secret_key_ref := None;
                       config_map_key_ref := None;
                       field_ref :=
                         Some {| ofs_field_path := FieldEnvSpec.field_path s;
                                 ofs_api_version := Some version |} |} |}) /\
  (forall s : FieldEnvSpec.t,
     FieldEnvSpec.api_version s = None ->
     FieldEnvSpec.build s = Raise ApiTypeError) /\
  (forall sn sk n v v' i i',
     SecretEnvSpec.build (SecretEnvSpec.Build_t sn sk n v i) =
     SecretEnvSpec.build (SecretEnvSpec.Build_t sn sk n v' i')) /\
  (forall cn ck n v v' i i',
     ConfigMapEnvSpec.build (ConfigMapEnvSpec.Build_t cn ck n v i) =
     ConfigMapEnvSpec.build (ConfigMapEnvSpec.Build_t cn ck n v' i')) /\
  (forall fp n v v' i i' av,
     FieldEnvSpec.build (FieldEnvSpec.Build_t fp n v i av) =
     FieldEnvSpec.build (FieldEnvSpec.Build_t fp n v' i' av)).
Proof.
  split; [reflexivity|]. split; [reflexivity|].
  split; [intros s version H; unfold FieldEnvSpec.build; rewrite H; reflexivity|].
  split; [intros s H; unfold FieldEnvSpec.build; rewrite H; reflexivity|].
  repeat split.
Qed.

(** [FieldEnvSpec("POD", field_path="metadata.name")], with the default
    [api_version], builds; with [api_version=None] it raises. *)
Lemma source_variants_ignore_value_witness :
  FieldEnvSpec.build Sample.pod_name =
    Ok {| ev_name := py "POD";
          ev_value := None;
          ev_value_from :=
            Some {| secret_key_ref := None;
                    config_map_key_ref := None;
                    field_ref :=
                      Some {| ofs_field_path := py "metadata.name";
                              ofs_api_version := Some (py "v1") |} |} |} /\
  FieldEnvSpec.build Sample.pod_name_unversioned = Raise ApiTypeError.
Proof.
  destruct source_variants_ignore_value as (_ & _ & Hsome & Hnone & _).
  split.
  - apply (Hsome Sample.pod_name (py "v1")). reflexivity.
  - apply (Hnone Sample.pod_name_unversioned). reflexivity.
Defined.




(** C5. The class docstring of [EnvSpec] announces a raise "when the
    specified value is not JSON serializable".  At
    [EnvSpec("IDS", value={1}, value_from_input="ids")] the value is a set,
    neither a string nor JSON-encodable, and [build] returns a variable
    without error: with [value_from_input] set, [json.dumps] is never
    called. *)
Lemma unencodable_value_with_input_reference_builds :
  is_str (EnvSpec.value Sample.ids_set_from_input) = false /\
  json_encodable (EnvSpec.value Sample.ids_set_from_input) = false /\
  EnvSpec.build Sample.ids_set_from_input =
    Ok {| ev_name := py "IDS";
          ev_value := Some (py "{{inputs.parameters.IDS}}");
          ev_value_from := None |} /\
  ~ (exists err, EnvSpec.build Sample.ids_set_from_input = Raise err /\
                 SerializationError err).
Proof.
  repeat split. intros [err [H _]]. discriminate H.
Qed.




(** Two more values that [json.dumps] accepts and that do not come back:
    a dict with an integer key returns with the key as a string, and a
    string of a high and a low surrogate returns as the one character
    they encode. *)
Example integer_key_comes_back_as_string :
  Json.dumps (PyDict [(PyInt 1, PyStr (py "a"))]) = Ok (dq "{'1': 'a'}") /\
  Json.loads (dq "{'1': 'a'}") = Some (PyDict [(PyStr (py "1"), PyStr (py "a"))]) /\
  py_eqb (PyDict [(PyStr (py "1"), PyStr (py "a"))])
         (PyDict [(PyInt 1, PyStr (py "a"))]) = false.
Proof. repeat split. Qed.

Example surrogate_pair_comes_back_joined :
  Json.dumps (PyList [PyStr [0xd83d; 0xde00]%N]) = Ok (dq "['\ud83d\ude00']") /\
  Json.loads (dq "['\ud83d\ude00']") = Some (PyList [PyStr [0x1f600%N]]) /\
  py_eqb (PyList [PyStr [0x1f600%N]]) (PyList [PyStr [0xd83d; 0xde00]%N]) = false.
Proof. repeat split. Qed.

End EnvFacts.

(** ** Parameter references *)

Section References.
Context {E : Wf.Externals}.
Import Env.

(** C7. [get_parameter] returns, for a name found among the workflow's
    parameters, a Parameter of that name whose value is the text
    [{{workflow.parameters.<name>}}], and raises [KeyError] for any other
    name; [EnvSpec.build] with an input reference returns a variable whose
    value is the text [{{inputs.parameters.<name>}}], [<name>] being the
    variable's own name. *)
Theorem parameter_references_are_exact (w : Wf.Workflow) (n : pystr) (e : EnvSpec.t) :
  ((exists ps p, Wf.parameters w = Some ps /\ p ∈ ps /\ Wf.p_name p = n) ->
   Wf.get_parameter w n =
     Ok {| Wf.p_name := n;
           Wf.p_value := Some (py "{{workflow.parameters." ++ n ++ py "}}") |}) /\
  (~ (exists ps p, Wf.parameters w = Some ps /\ p ∈ ps /\ Wf.p_name p = n) ->
   exists msg, Wf.get_parameter w n = Raise (KeyError msg)) /\
  (is_Some (EnvSpec.value_from_input e) ->
   EnvSpec.build e =
     Ok {| ev_name := EnvSpec.name e;
           ev_value := Some (py "{{inputs.parameters." ++ EnvSpec.name e ++ py "}}");
           ev_value_from := None |}).
Proof.
  split; [|split].
  - intros (ps & p & Hps & Hin & Hn). unfold Wf.get_parameter. rewrite Hps.
    destruct (find _ ps) eqn:Hf; [reflexivity|].
    exfalso. eapply find_none in Hf; [|apply list_elem_of_In; exact Hin].
    cbn in Hf. apply bool_decide_eq_false in Hf. contradiction.
  - intros Hno. unfold Wf.get_parameter.
    destruct (Wf.parameters w) as [ps|] eqn:Hps; [|eauto].
    destruct (find _ ps) as [p|] eqn:Hf; [|eauto].
    exfalso. apply Hno. apply find_some in Hf as [Hin Hn].
    apply bool_decide_eq_true in Hn. apply list_elem_of_In in Hin. eauto.
  - intros [i Hi]. unfold EnvSpec.build. rewrite Hi. reflexivity.
Qed.

End References.

Lemma parameter_references_are_exact_witness :
  @Wf.get_parameter Sample.externals Sample.with_parameters (py "b") =
    Ok {| Wf.p_name := py "b"; Wf.p_value := Some (py "{{workflow.parameters.b}}") |} /\
  (exists msg,
     @Wf.get_parameter Sample.externals Sample.with_parameters (py "c") =
       Raise (KeyError msg)) /\
  Env.EnvSpec.build {| Env.EnvSpec.name := py "IDS"; Env.EnvSpec.value := PyNone;
                       Env.EnvSpec.value_from_input := Some (py "ids") |} =
    Ok {| Env.ev_name := py "IDS";
          Env.ev_value := Some (py "{{inputs.parameters.IDS}}");
          Env.ev_value_from := None |}.
Proof.
  pose (e := {| Env.EnvSpec.name := py "IDS"; Env.EnvSpec.value := PyNone;
                Env.EnvSpec.value_from_input := Some (py "ids") |}).
  split; [|split].
  - apply (@parameter_references_are_exact Sample.externals
             Sample.with_parameters (py "b") e).
    exists [ {| Wf.p_name := py "a"; Wf.p_value := None |};
             {| Wf.p_name := py "b"; Wf.p_value := None |} ],
           {| Wf.p_name := py "b"; Wf.p_value := None |}.
    split; [reflexivity|]. split; [|reflexivity].
    apply list_elem_of_further, list_elem_of_here.
  - apply (@parameter_references_are_exact Sample.externals
             Sample.with_parameters (py "c") e).
    intros (ps & p & Hps & Hin & Hn). injection Hps as <-.
    apply elem_of_cons in Hin as [->|Hin]; [discriminate Hn|].
    apply elem_of_cons in Hin as [->|Hin]; [discriminate Hn|].
    inversion Hin.
  - apply (@parameter_references_are_exact Sample.externals
             Sample.with_parameters (py "b") e).
    eexists; reflexivity.
Defined.

(** ** The Workflow properties on the sample workflow *)

Section SampleRuns.
Import Wf.
#[local] Existing Instance Sample.externals.
#[local] Existing Instance Sample.collaborators.

Lemma build_omits_unset_fields_witness :
  exists m,
    build Sample.with_dag Sample.tasks = Ok m /\
    metadata m !! "name" = Some (AStr (py "w")) /\
    spec m !! "entrypoint" = Some (AStr (py "w")) /\
    spec m !! "templates" =
      Some (AFragments ([py "t1"; py "t2"] ++ [py "w: t1, t2"])) /\
    Forall (fun key => spec m !! key = None) optional_spec_keys /\
    Forall (fun key => metadata m !! key = None) optional_metadata_keys.
Proof.
  apply (build_omits_unset_fields Sample.with_dag Sample.tasks Sample.two_tasks
           [py "t1"; py "t2"] [py "w: t1, t2"] [] []);
    [repeat split | reflexivity ..].
Defined.

Lemma create_after_scope_only_witness :
  (exists e,
     create (set_in_context true Sample.with_dag) Sample.world =
       (Raise e, set_in_context true Sample.with_dag, Sample.world) /\
     InvalidStateError e) /\
  (exists m,
     build Sample.with_dag Sample.tasks = Ok m /\
     create Sample.with_dag Sample.world =
       (Ok ReturnsSelf, Sample.with_dag,
        set_submitted [(py "https://localhost:2746", m)] Sample.world)).
Proof.
  split.
  - apply (create_after_scope_only (set_in_context true Sample.with_dag) Sample.world);
      [reflexivity | eexists; reflexivity].
  - eexists. split; [reflexivity|].
    apply (create_after_scope_only Sample.with_dag Sample.world);
      [reflexivity | eexists; reflexivity | reflexivity | reflexivity].
Defined.

Lemma enter_needs_no_dag_witness :
  (exists e,
     __enter__ Sample.with_dag Sample.world =
       (Raise e, set_in_context true Sample.with_dag, Sample.world) /\
     InvalidStateError e) /\
  (exists w',
     __enter__ Sample.plain Sample.world =
       (Ok ReturnsSelf, w', set_context [DAG_init (py "w")] Sample.world) /\
     dag w' = Some (DAG_init (py "w")) /\
     dag_name (DAG_init (py "w")) = py "w" /\
     dag_tasks (DAG_init (py "w")) = [] /\
     in_context w' = true).
Proof.
  split.
  - apply (enter_needs_no_dag Sample.with_dag Sample.world). eexists; reflexivity.
  - apply (enter_needs_no_dag Sample.plain Sample.world); reflexivity.
Defined.

Lemma failed_enter_blocks_create_witness :
  exists e e',
    __enter__ Sample.with_dag Sample.world =
      (Raise e, set_in_context true Sample.with_dag, Sample.world) /\
    InvalidStateError e /\
    in_context (set_in_context true Sample.with_dag) = true /\
    dag (set_in_context true Sample.with_dag) = Some Sample.two_tasks /\
    (in_context Sample.with_dag = false ->
     set_in_context true Sample.with_dag <> Sample.with_dag) /\
    create (set_in_context true Sample.with_dag) Sample.world =
      (Raise e', set_in_context true Sample.with_dag, Sample.world) /\
    InvalidStateError e'.
Proof.
  apply (failed_enter_blocks_create Sample.with_dag Sample.world).
  eexists; reflexivity.
Defined.

Lemma on_exit_task_witness :
  exists w' σ' m,
    on_exit Sample.with_dag (IsTask 2) Sample.world = (Ok ReturnsNone, w', σ') /\
    exit_task w' = Some (py "t2") /\
    main_chain Sample.two_tasks (store σ') = [1] /\
    build w' (store σ') = Ok m /\
    spec m !! "on_exit" = Some (AStr (py "t2")) /\
    spec m !! "templates" = Some (AFragments [py "t1"; py "t2"; py "w: t1"]).
Proof.
  destruct (on_exit_task Sample.with_dag Sample.world 2)
    as (w' & σ' & Hcall & Hname & _ & _ & _ & _ & Hkey).
  exists w', σ'.
  injection Hcall as <- <-.
  eexists. split; [reflexivity|]. split; [exact Hname|].
  split; [reflexivity|]. split; [reflexivity|].
  split; [apply Hkey|]; reflexivity.
Defined.

End SampleRuns.

(** * Further properties *)

(** ** What [_build_spec] and [_build_metadata] put in the manifest *)

Section ManifestFacts.
Context {E : Wf.Externals} {C : Wf.Collaborators}.
Import Wf.

Lemma rbind_Ok {A B} (r : result A) (k : A -> result B) b :
  rbind r k = Ok b -> exists a, r = Ok a /\ k a = Ok b.
Proof. destruct r as [a|e]; cbn; [eauto | discriminate]. Qed.

Lemma set_if_present_lookup {A} (x : option A) key (f : A -> result attr)
    (s s' : model_object) :
  set_if_present x key f s = Ok s' ->
  (forall k, k <> key -> s' !! k = s !! k) /\
  s' !! key = match x with
              | Some a => returned_value (f a)
              | None => s !! key
              end.
Proof.
  destruct x as [a|]; cbn [set_if_present].
  - intros H. apply rbind_Ok in H as (v & Hv & [= <-]). rewrite Hv. split.
    + intros k Hk. apply setattr_lookup_ne. congruence.
    + apply setattr_lookup.
  - intros [= <-]. auto.
Qed.

Lemma setattr_if_lookup_ne (b : bool) (s : model_object) key v k :
  k <> key -> (if b then setattr s key v else s) !! k = s !! k.
Proof. intros Hk. destruct b; [apply setattr_lookup_ne; congruence | reflexivity]. Qed.

(** Walks a lookup down the chain of steps, past the steps of other keys;
    [skip_if] and [skip] are the lemmas for a step of another key. *)
Ltac fall skip_if skip :=
  repeat first
    [ rewrite skip_if by (discriminate || assumption)
    | rewrite skip by (discriminate || congruence)
    | match goal with
      | F : forall k, k <> _ -> ?s !! k = _ |- context [?s !! _] =>
          rewrite F by (discriminate || assumption)
      end ].

(** Reads the key of one step: its own value when the field is set, what
    the earlier steps left (nothing) when it is not. *)
Ltac own_key skip_if skip :=
  fall skip_if skip;
  match goal with V : ?s !! ?key = _ |- ?s !! ?key = _ => rewrite V end;
  match goal with |- match ?x with _ => _ end = _ => destruct x end;
  [ cbv beta iota delta [option_bind];
    first [ reflexivity
          | match goal with |- context [rbind ?r _] => destruct r; reflexivity end ]
  | fall skip_if skip; reflexivity ].

(** The steps of a successful [_build_spec], one fact per step: what the
    step leaves at its own key and that it leaves the other keys alone. *)
Lemma _build_spec_steps (w : Workflow) st wt (s : model_object) :
  _build_spec w st wt = Ok s ->
  exists d t1 templates (s0 : model_object) vct pcvs,
    dag w = Some d /\
    DAG_build_templates d st = Ok t1 /\
    (if wt then templates = t1 /\ s0 = ∅
     else exists t2, DAG_build d st = Ok t2 /\ templates = t1 ++ t2 /\
                     s0 = setattr ∅ "entrypoint" (AStr (name w))) /\
    DAG_build_volume_claim_templates d st = Ok vct /\
    DAG_build_persistent_volume_claims d st = Ok pcvs /\
    forall k,
      s !! k =
        if decide (k = "on_exit") then AStr <$> exit_task w
        else if decide (k = "volumes") then
          (if truthy (Some pcvs) then Some (AFragments pcvs) else None)
        else if decide (k = "volume_claim_templates") then
          (if truthy (Some vct) then Some (AFragments vct) else None)
        else if decide (k = "tolerations") then
          ts ← tolerations w; AFragments <$> returned_value (traverse Toleration_build ts)
        else if decide (k = "node_selector") then ADict <$> node_selector w
        else if decide (k = "affinity") then
          a ← affinity w; AFragment <$> returned_value (Affinity_build a)
        else if decide (k = "arguments") then
          ps ← parameters w;
          AArguments <$> returned_value (traverse Parameter_as_argument ps)
        else if decide (k = "image_pull_secrets") then
          ALocalObjectReferences <$> image_pull_secrets w
        else if decide (k = "service_account_name") then AStr <$> service_account_name w
        else if decide (k = "security_context") then
          sc ← security_context w; AFragment <$> returned_value (get_security_context sc)
        else if decide (k = "host_aliases") then
          (fun hs => AFragments (map argo_host_alias hs)) <$> host_aliases w
        else if decide (k = "volume_claim_gc") then
          (fun g => AVolumeClaimGC (VolumeClaimGCStrategy_value g))
            <$> volume_claim_gc_strategy w
        else if decide (k = "ttl_strategy") then
          t ← ttl_strategy w; AFragment <$> returned_value (TTLStrategy_build t)
        else if decide (k = "parallelism") then AInt <$> parallelism w
        else if decide (k = "templates") then Some (AFragments templates)
        else s0 !! k.
Proof.
  unfold _build_spec. destruct (dag w) as [d|]; [|discriminate].
  unfold mbind, result_bind. intros H.
  apply rbind_Ok in H as (t1 & Ht1 & H).
  apply rbind_Ok in H as ([templates s0] & H0 & H).
  apply rbind_Ok in H as (s1 & H1 & H). apply set_if_present_lookup in H1 as [F1 V1].
  apply rbind_Ok in H as (s2 & H2 & H). apply set_if_present_lookup in H2 as [F2 V2].
  apply rbind_Ok in H as (s3 & H3 & H). apply set_if_present_lookup in H3 as [F3 V3].
  apply rbind_Ok in H as (s4 & H4 & H). apply set_if_present_lookup in H4 as [F4 V4].
  apply rbind_Ok in H as (s5 & H5 & H). apply set_if_present_lookup in H5 as [F5 V5].
  apply rbind_Ok in H as (s6 & H6 & H). apply set_if_present_lookup in H6 as [F6 V6].
  apply rbind_Ok in H as (s7 & H7 & H). apply set_if_present_lookup in H7 as [F7 V7].
  apply rbind_Ok in H as (s8 & H8 & H). apply set_if_present_lookup in H8 as [F8 V8].
  apply rbind_Ok in H as (s9 & H9 & H). apply set_if_present_lookup in H9 as [F9 V9].
  apply rbind_Ok in H as (s10 & H10 & H). apply set_if_present_lookup in H10 as [F10 V10].
  apply rbind_Ok in H as (s11 & H11 & H). apply set_if_present_lookup in H11 as [F11 V11].
  apply rbind_Ok in H as (vct & Hvct & H).
  apply rbind_Ok in H as (pcvs & Hpcvs & H).
  apply rbind_Ok in H as (s12 & H12 & [= <-]).
  apply set_if_present_lookup in H12 as [F12 V12].
  assert (Hwt : if wt then templates = t1 /\ s0 = ∅
                else exists t2, DAG_build d st = Ok t2 /\ templates = t1 ++ t2 /\
                                s0 = setattr ∅ "entrypoint" (AStr (name w))).
  { destruct wt; cbn [negb] in H0.
    - injection H0 as <- <-. auto.
    - apply rbind_Ok in H0 as (t2 & Ht2 & [= <- <-]). eauto. }
  assert (Hs0 : forall k, k <> "entrypoint" -> s0 !! k = None).
  { intros k Hk. destruct wt; [destruct Hwt as [_ ->]|destruct Hwt as (t2 & _ & _ & ->)].
    - apply lookup_empty.
    - rewrite setattr_lookup_ne by congruence. apply lookup_empty. }
  clear H0.
  exists d, t1, templates, s0, vct, pcvs.
  split; [reflexivity|]. split; [exact Ht1|]. split; [exact Hwt|].
  split; [exact Hvct|]. split; [exact Hpcvs|].
  intros k.
  destruct (decide (k = "on_exit")) as [->|?];
    cbv iota; [own_key setattr_if_lookup_ne setattr_lookup_ne|].
  destruct (decide (k = "volumes")) as [->|?]; cbv iota.
  { fall setattr_if_lookup_ne setattr_lookup_ne. destruct pcvs; cbn [truthy];
      [ fall setattr_if_lookup_ne setattr_lookup_ne; reflexivity
      | apply setattr_lookup ]. }
  destruct (decide (k = "volume_claim_templates")) as [->|?]; cbv iota.
  { fall setattr_if_lookup_ne setattr_lookup_ne. destruct vct; cbn [truthy];
      [ fall setattr_if_lookup_ne setattr_lookup_ne; reflexivity
      | apply setattr_lookup ]. }
  destruct (decide (k = "tolerations")) as [->|?];
    cbv iota; [own_key setattr_if_lookup_ne setattr_lookup_ne|].
  destruct (decide (k = "node_selector")) as [->|?];
    cbv iota; [own_key setattr_if_lookup_ne setattr_lookup_ne|].
  destruct (decide (k = "affinity")) as [->|?];
    cbv iota; [own_key setattr_if_lookup_ne setattr_lookup_ne|].
  destruct (decide (k = "arguments")) as [->|?];
    cbv iota; [own_key setattr_if_lookup_ne setattr_lookup_ne|].
  destruct (decide (k = "image_pull_secrets")) as [->|?];
    cbv iota; [own_key setattr_if_lookup_ne setattr_lookup_ne|].
  destruct (decide (k = "service_account_name")) as [->|?];
    cbv iota; [own_key setattr_if_lookup_ne setattr_lookup_ne|].
  destruct (decide (k = "security_context")) as [->|?];
    cbv iota; [own_key setattr_if_lookup_ne setattr_lookup_ne|].
  destruct (decide (k = "host_aliases")) as [->|?];
    cbv iota; [own_key setattr_if_lookup_ne setattr_lookup_ne|].
  destruct (decide (k = "volume_claim_gc")) as [->|?];
    cbv iota; [own_key setattr_if_lookup_ne setattr_lookup_ne|].
  destruct (decide (k = "ttl_strategy")) as [->|?];
    cbv iota; [own_key setattr_if_lookup_ne setattr_lookup_ne|].
  destruct (decide (k = "parallelism")) as [->|?];
    cbv iota; [own_key setattr_if_lookup_ne setattr_lookup_ne|].
  destruct (decide (k = "templates")) as [->|?]; cbv iota.
  { fall setattr_if_lookup_ne setattr_lookup_ne. apply setattr_lookup. }
  fall setattr_if_lookup_ne setattr_lookup_ne. reflexivity.
Qed.

Lemma set_if_present_Ok {A} (x : option A) key (f : A -> result attr)
    (s s' : model_object) a :
  set_if_present x key f s = Ok s' -> x = Some a -> exists v, f a = Ok v.
Proof.
  intros H ->. cbn [set_if_present] in H.
  apply rbind_Ok in H as (v & Hv & _). eauto.
Qed.

Lemma rbind_wrap_Ok {A B} (r : result A) (g : A -> B) :
  (exists b, rbind r (fun a => Ok (g a)) = Ok b) -> exists a, r = Ok a.
Proof. intros [b H]. apply rbind_Ok in H as (a & Ha & _). eauto. Qed.

(** A successful [_build_spec] has compiled every field that is set. *)
Lemma _build_spec_compiled (w : Workflow) st wt (s : model_object) :
  _build_spec w st wt = Ok s ->
  (forall t, ttl_strategy w = Some t -> exists v, TTLStrategy_build t = Ok v) /\
  (forall sc, security_context w = Some sc -> exists v, get_security_context sc = Ok v) /\
  (forall ps, parameters w = Some ps ->
     exists v, traverse Parameter_as_argument ps = Ok v) /\
  (forall a, affinity w = Some a -> exists v, Affinity_build a = Ok v) /\
  (forall ts, tolerations w = Some ts -> exists v, traverse Toleration_build ts = Ok v).
Proof.
  unfold _build_spec. destruct (dag w) as [d|]; [|discriminate].
  unfold mbind, result_bind. intros H.
  apply rbind_Ok in H as (t1 & _ & H).
  apply rbind_Ok in H as ([templates s0] & _ & H).
  apply rbind_Ok in H as (s1 & _ & H).
  apply rbind_Ok in H as (s2 & H2 & H).
  apply rbind_Ok in H as (s3 & _ & H).
  apply rbind_Ok in H as (s4 & _ & H).
  apply rbind_Ok in H as (s5 & H5 & H).
  apply rbind_Ok in H as (s6 & _ & H).
  apply rbind_Ok in H as (s7 & _ & H).
  apply rbind_Ok in H as (s8 & H8 & H).
  apply rbind_Ok in H as (s9 & H9 & H).
  apply rbind_Ok in H as (s10 & _ & H).
  apply rbind_Ok in H as (s11 & H11 & _).
  split; [|split; [|split; [|split]]].
  - intros t Ht. apply rbind_wrap_Ok with (g := AFragment).
    exact (set_if_present_Ok _ _ _ _ _ t H2 Ht).
  - intros sc Hsc. apply rbind_wrap_Ok with (g := AFragment).
    exact (set_if_present_Ok _ _ _ _ _ sc H5 Hsc).
  - intros ps Hps. apply rbind_wrap_Ok with (g := AArguments).
    exact (set_if_present_Ok _ _ _ _ _ ps H8 Hps).
  - intros a Ha. apply rbind_wrap_Ok with (g := AFragment).
    exact (set_if_present_Ok _ _ _ _ _ a H9 Ha).
  - intros ts Hts. apply rbind_wrap_Ok with (g := AFragments).
    exact (set_if_present_Ok _ _ _ _ _ ts H11 Hts).
Qed.

(** X1. In a spec that [_build_spec] returned, the key of every optional
    field is absent when the field is [None] and holds the field's content
    when the field is set, compiled where it has a compile method: the
    compilation of every field that is set has succeeded. *)
Theorem built_spec_mirrors_fields (w : Workflow) st wt (s : model_object) :
  _build_spec w st wt = Ok s ->
  s !! "parallelism" = AInt <$> parallelism w /\
  match ttl_strategy w with
  | Some t => exists v, TTLStrategy_build t = Ok v /\
                        s !! "ttl_strategy" = Some (AFragment v)
  | None => s !! "ttl_strategy" = None
  end /\
  s !! "volume_claim_gc" =
    (fun g => AVolumeClaimGC (VolumeClaimGCStrategy_value g))
      <$> volume_claim_gc_strategy w /\
  s !! "host_aliases" =
    (fun hs => AFragments (map argo_host_alias hs)) <$> host_aliases w /\
  match security_context w with
  | Some sc => exists v, get_security_context sc = Ok v /\
                         s !! "security_context" = Some (AFragment v)
  | None => s !! "security_context" = None
  end /\
  s !! "service_account_name" = AStr <$> service_account_name w /\
  s !! "image_pull_secrets" = ALocalObjectReferences <$> image_pull_secrets w /\
  match parameters w with
  | Some ps => exists args, traverse Parameter_as_argument ps = Ok args /\
                            s !! "arguments" = Some (AArguments args)
  | None => s !! "arguments" = None
  end /\
  match affinity w with
  | Some a => exists v, Affinity_build a = Ok v /\
                        s !! "affinity" = Some (AFragment v)
  | None => s !! "affinity" = None
  end /\
  s !! "node_selector" = ADict <$> node_selector w /\
  match tolerations w with
  | Some ts => exists fs, traverse Toleration_build ts = Ok fs /\
                          s !! "tolerations" = Some (AFragments fs)
  | None => s !! "tolerations" = None
  end /\
  s !! "on_exit" = AStr <$> exit_task w.
Proof.
  intros H.
  destruct (_build_spec_steps w st wt s H)
    as (d & t1 & tm & s0 & vct & pcvs & _ & _ & _ & _ & _ & Hk).
  destruct (_build_spec_compiled w st wt s H) as (Cttl & Csc & Cps & Caff & Ctol).
  split; [rewrite Hk; reflexivity|].
  split.
  { destruct (ttl_strategy w) as [t|] eqn:Ef.
    - destruct (Cttl t eq_refl) as [v Hv]. exists v. split; [exact Hv|].
      rewrite Hk. cbv beta iota delta [mbind option_bind]. rewrite Hv. reflexivity.
    - rewrite Hk. reflexivity. }
  split; [rewrite Hk; reflexivity|]. split; [rewrite Hk; reflexivity|].
  split.
  { destruct (security_context w) as [sc|] eqn:Ef.
    - destruct (Csc sc eq_refl) as [v Hv]. exists v. split; [exact Hv|].
      rewrite Hk. cbv beta iota delta [mbind option_bind]. rewrite Hv. reflexivity.
    - rewrite Hk. reflexivity. }
  split; [rewrite Hk; reflexivity|]. split; [rewrite Hk; reflexivity|].
  split.
  { destruct (parameters w) as [ps|] eqn:Ef.
    - destruct (Cps ps eq_refl) as [v Hv]. exists v. split; [exact Hv|].
      rewrite Hk. cbv beta iota delta [mbind option_bind]. rewrite Hv. reflexivity.
    - rewrite Hk. reflexivity. }
  split.
  { destruct (affinity w) as [a|] eqn:Ef.
    - destruct (Caff a eq_refl) as [v Hv]. exists v. split; [exact Hv|].
      rewrite Hk. cbv beta iota delta [mbind option_bind]. rewrite Hv. reflexivity.
    - rewrite Hk. reflexivity. }
  split; [rewrite Hk; reflexivity|].
  split.
  { destruct (tolerations w) as [ts|] eqn:Ef.
    - destruct (Ctol ts eq_refl) as [v Hv]. exists v. split; [exact Hv|].
      rewrite Hk. cbv beta iota delta [mbind option_bind]. rewrite Hv. reflexivity.
    - rewrite Hk. reflexivity. }
  rewrite Hk. reflexivity.
Qed.

(** X2. A field set to an empty list or dict still yields its key in the
    spec, with an empty content, because [_build_spec] tests for [None];
    empty labels and annotations are left out of the metadata, because
    [_build_metadata] tests for truth. *)
Theorem empty_collections_in_manifest (w : Workflow) st (m : Manifest) :
  build w st = Ok m ->
  (tolerations w = Some [] -> spec m !! "tolerations" = Some (AFragments [])) /\
  (host_aliases w = Some [] -> spec m !! "host_aliases" = Some (AFragments [])) /\
  (image_pull_secrets w = Some [] ->
   spec m !! "image_pull_secrets" = Some (ALocalObjectReferences [])) /\
  (node_selector w = Some [] -> spec m !! "node_selector" = Some (ADict [])) /\
  (parameters w = Some [] -> spec m !! "arguments" = Some (AArguments [])) /\
  (labels w = Some [] -> metadata m !! "labels" = None) /\
  (annotations w = Some [] -> metadata m !! "annotations" = None).
Proof.
  unfold build, mbind, result_bind. intros H.
  apply rbind_Ok in H as (s & Hs & [= <-]). cbn [spec metadata].
  destruct (_build_spec_steps w st false s Hs)
    as (d & t1 & tm & s0 & vct & pcvs & _ & _ & _ & _ & _ & Hk).
  repeat split.
  - intros E0. rewrite Hk, E0. reflexivity.
  - intros E0. rewrite Hk, E0. reflexivity.
  - intros E0. rewrite Hk, E0. reflexivity.
  - intros E0. rewrite Hk, E0. reflexivity.
  - intros E0. rewrite Hk, E0. reflexivity.
  - intros E0. unfold _build_metadata. rewrite E0. cbn [truthy].
    destruct (truthy (annotations w));
      rewrite ?setattr_lookup_ne by discriminate; apply lookup_empty.
  - intros E0. unfold _build_metadata. rewrite E0. cbn [truthy].
    destruct (truthy (labels w));
      rewrite ?setattr_lookup_ne by discriminate; apply lookup_empty.
Qed.

(** X3. The keys that come from the DAG: the entrypoint is set, and the
    main template appended to the task templates, only when the spec is
    not built for a workflow template; the two volume keys are set only
    for a non-empty list; and the spec holds no key beyond the sixteen
    that [_build_spec] can set. *)
Theorem built_spec_dag_keys (w : Workflow) st wt (s : model_object) :
  _build_spec w st wt = Ok s ->
  exists d t1 vct pcvs,
    dag w = Some d /\
    DAG_build_templates d st = Ok t1 /\
    DAG_build_volume_claim_templates d st = Ok vct /\
    DAG_build_persistent_volume_claims d st = Ok pcvs /\
    (wt = true ->
       s !! "entrypoint" = None /\ s !! "templates" = Some (AFragments t1)) /\
    (wt = false ->
       s !! "entrypoint" = Some (AStr (name w)) /\
       exists t2, DAG_build d st = Ok t2 /\
                  s !! "templates" = Some (AFragments (t1 ++ t2))) /\
    s !! "volume_claim_templates" =
      (if truthy (Some vct) then Some (AFragments vct) else None) /\
    s !! "volumes" =
      (if truthy (Some pcvs) then Some (AFragments pcvs) else None) /\
    (forall k, k ∉ spec_keys -> s !! k = None).
Proof.
  intros H.
  destruct (_build_spec_steps w st wt s H)
    as (d & t1 & tm & s0 & vct & pcvs & Hd & Ht1 & Hwt & Hvct & Hpcvs & Hk).
  exists d, t1, vct, pcvs. repeat (split; [assumption|]).
  split; [|split; [|split; [|split]]].
  - intros ->. destruct Hwt as [-> ->]. rewrite !Hk. split; reflexivity.
  - intros ->. destruct Hwt as (t2 & Ht2 & -> & ->). rewrite !Hk.
    split; [reflexivity|]. exists t2. split; [exact Ht2|reflexivity].
  - rewrite Hk. reflexivity.
  - rewrite Hk. reflexivity.
  - intros k Hnot. rewrite Hk.
    unfold spec_keys, optional_spec_keys in Hnot. cbn [app] in Hnot.
    repeat (apply not_elem_of_cons in Hnot as [? Hnot]).
    repeat (rewrite decide_False by assumption).
    destruct wt; [destruct Hwt as [_ ->]|destruct Hwt as (t2 & _ & _ & ->)].
    + apply lookup_empty.
    + rewrite setattr_lookup_ne by congruence. apply lookup_empty.
Qed.

(** X4. The metadata holds the name only when asked for it, the labels
    and the annotations only when they are a non-empty dict, and nothing
    else. *)
Theorem built_metadata_keys (w : Workflow) (use_name : bool) :
  _build_metadata w use_name !! "name" =
    (if use_name then Some (AStr (name w)) else None) /\
  _build_metadata w use_name !! "labels" =
    match labels w with
    | Some (kv :: l) => Some (ADict (kv :: l))
    | _ => None
    end /\
  _build_metadata w use_name !! "annotations" =
    match annotations w with
    | Some (kv :: l) => Some (ADict (kv :: l))
    | _ => None
    end /\
  (forall k, k ∉ ["name"; "labels"; "annotations"] ->
     _build_metadata w use_name !! k = None).
Proof.
  unfold _build_metadata.
  destruct use_name, (labels w) as [[|? ?]|], (annotations w) as [[|? ?]|];
    cbn [truthy default];
    (split; [|split; [|split]];
     [ rewrite ?setattr_lookup_ne by discriminate;
       first [apply setattr_lookup | apply lookup_empty]
     | rewrite ?setattr_lookup_ne by discriminate;
       first [apply setattr_lookup | apply lookup_empty]
     | rewrite ?setattr_lookup_ne by discriminate;
       first [apply setattr_lookup | apply lookup_empty]
     | intros k Hnot; repeat (apply not_elem_of_cons in Hnot as [? Hnot]);
       rewrite ?setattr_lookup_ne by congruence; apply lookup_empty ]).
Qed.

(** X5. [build] and [_build_spec] read neither the service, nor
    [workflow_template_ref], nor [in_context], nor the task list: a
    Workflow builds to the same result whatever these four fields hold, so
    also inside its scope. *)
Theorem build_ignores_unread_fields (w : Workflow) st wt svc ref b ts :
  build (with_unread_fields svc ref b ts w) st = build w st /\
  _build_spec (with_unread_fields svc ref b ts w) st wt = _build_spec w st wt /\
  build (set_in_context true w) st = build w st.
Proof. repeat split. Qed.

End ManifestFacts.

(** ** The life cycle of a Workflow *)

Section LifeCycle.
Context {E : Wf.Externals} {C : Wf.Collaborators}.
Import Wf.

(** X6. An empty [with] block followed by [create]: [__enter__] on a
    Workflow without DAG, then [__exit__], leave the Workflow out of its
    scope with the fresh DAG kept, and [create] then hands the manifest
    built from that DAG to the service. *)
Theorem scope_then_create (w : Workflow) (σ : World) c1 c2 m :
  dag w = None ->
  dag_context_enter (DAG_init (name w)) (context σ) = (Ok tt, c1) ->
  dag_context_exit c1 = (Ok tt, c2) ->
  build (set_in_context false (set_dag (Some (DAG_init (name w))) w)) (store σ) = Ok m ->
  create_workflow (service w) m = Ok tt ->
  exists w1 w2,
    __enter__ w σ = (Ok ReturnsSelf, w1, set_context c1 σ) /\
    __exit__ w1 (set_context c1 σ) = (Ok ReturnsNone, w2, set_context c2 σ) /\
    in_context w2 = false /\ dag w2 = Some (DAG_init (name w)) /\
    create w2 (set_context c2 σ) =
      (Ok ReturnsSelf, w2,
       set_submitted (submitted σ ++ [(service w, m)]) (set_context c2 σ)).
Proof.
  intros Hd Henter Hexit Hbuild Hsvc.
  eexists _, _. split; [|split].
  - unfold __enter__. cbn [dag set_in_context name]. rewrite Hd, Henter. reflexivity.
  - unfold __exit__. cbn [context set_context]. rewrite Hexit. reflexivity.
  - split; [reflexivity|]. split; [reflexivity|].
    unfold create. cbn [dag in_context set_in_context set_dag store set_context service].
    change (build _ (store σ)) with
      (build (set_in_context false (set_dag (Some (DAG_init (name w))) w)) (store σ)).
    rewrite Hbuild, Hsvc. reflexivity.
Qed.

(** X7. A Workflow serves as a scope once: the DAG that the first entry
    created is still there after [__exit__], so a second [__enter__] raises
    the invalid-state error, whatever the DAG context holds; it leaves
    [in_context] set, and no [__exit__] follows a failed entry. *)
Theorem scope_is_single_use (w : Workflow) (σ σ' : World) r1 w1 σ1 r2 w2 σ2 :
  dag w = None ->
  __enter__ w σ = (r1, w1, σ1) ->
  __exit__ w1 σ1 = (r2, w2, σ2) ->
  in_context w2 = false /\
  dag w2 = Some (DAG_init (name w)) /\
  exists e,
    __enter__ w2 σ' = (Raise e, set_in_context true w2, σ') /\
    InvalidStateError e /\
    in_context (set_in_context true w2) = true.
Proof.
  intros Hd Henter Hexit.
  assert (Hw1 : dag w1 = Some (DAG_init (name w))).
  { unfold __enter__ in Henter. cbn [dag set_in_context name] in Henter.
    rewrite Hd in Henter.
    destruct (dag_context_enter _ _) as [[[]|e] c]; injection Henter as _ <- _;
      reflexivity. }
  assert (Hw2 : in_context w2 = false /\ dag w2 = dag w1).
  { unfold __exit__ in Hexit.
    destruct (dag_context_exit _) as [[[]|e] c]; injection Hexit as _ <- _;
      split; reflexivity. }
  destruct Hw2 as [Hin Hdag]. rewrite Hw1 in Hdag.
  split; [exact Hin|]. split; [exact Hdag|].
  unfold __enter__. cbn [dag set_in_context]. rewrite Hdag.
  eexists. split; [reflexivity|]. split; [exact I|reflexivity].
Qed.

(** X8. What [create] does to its surroundings: it never changes the
    Workflow, the task store or the DAG context; it returns only after it
    has passed the manifest that [build] yields to the workflow's own
    service, outside the scope; and when it raises, no service was called
    unless the exception is the service's own. *)
Theorem create_effects (w : Workflow) (σ : World) r w' σ' :
  create w σ = (r, w', σ') ->
  w' = w /\ store σ' = store σ /\ context σ' = context σ /\
  (r = Ok ReturnsSelf ->
     exists m,
       is_Some (dag w) /\ in_context w = false /\
       build w (store σ) = Ok m /\ create_workflow (service w) m = Ok tt /\
       submitted σ' = submitted σ ++ [(service w, m)]) /\
  (forall e, r = Raise e ->
     submitted σ' = submitted σ \/
     exists m,
       build w (store σ) = Ok m /\ create_workflow (service w) m = Raise e /\
       submitted σ' = submitted σ ++ [(service w, m)]).
Proof.
  unfold create. intros H.
  destruct (dag w) as [d|]; [|injection H as <- <- <-; repeat split; try discriminate; auto].
  destruct (in_context w); [injection H as <- <- <-; repeat split; try discriminate; auto|].
  destruct (build w (store σ)) as [m|e0];
    [|injection H as <- <- <-; repeat split; try discriminate; auto].
  destruct (create_workflow (service w) m) as [[]|e0] eqn:Hs;
    injection H as <- <- <-; repeat split; try discriminate.
  - intros _. exists m. repeat split; eauto.
  - intros e [= <-]. right. exists m. auto.
Qed.

(** X9. A Workflow without DAG can be neither built nor created: both
    raise [AssertionError], [create] also inside the scope, since it
    asserts the DAG before it looks at [in_context]; it is not the
    invalid-state error, and nothing is submitted. *)
Theorem no_dag_no_manifest (w : Workflow) (σ : World) wt :
  dag w = None ->
  build w (store σ) = Raise AssertionError /\
  _build_spec w (store σ) wt = Raise AssertionError /\
  create w σ = (Raise AssertionError, w, σ) /\
  create (set_in_context true w) σ = (Raise AssertionError, set_in_context true w, σ) /\
  ~ InvalidStateError AssertionError.
Proof.
  intros Hd. unfold build, create, _build_spec. cbn [dag set_in_context].
  rewrite Hd. repeat split. intros [].
Qed.

(** X10. Designating two exit tasks in a row: the second call decides
    the exit handler, yet the task of the first call keeps its mark, so
    both are left out of the main chain; the names and the other tasks
    are untouched. *)
Theorem on_exit_twice (w : Workflow) (σ : World) (r1 r2 : TaskRef) :
  exists w1 σ1 w2 σ2,
    on_exit w (IsTask r1) σ = (Ok ReturnsNone, w1, σ1) /\
    on_exit w1 (IsTask r2) σ1 = (Ok ReturnsNone, w2, σ2) /\
    exit_task w2 = Some (task_name (store σ r2)) /\
    is_exit_task (store σ2 r1) = true /\
    is_exit_task (store σ2 r2) = true /\
    (forall d, (r1 ∉ main_chain d (store σ2)) /\ (r2 ∉ main_chain d (store σ2))) /\
    (forall r, task_name (store σ2 r) = task_name (store σ r)) /\
    (forall r, r <> r1 -> r <> r2 -> store σ2 r = store σ r).
Proof.
  eexists _, _, _, _. split; [reflexivity|]. split; [reflexivity|].
  cbn [store set_store exit_task set_exit_task].
  assert (Hmark : forall r,
    is_exit_task
      ((<[r2 := mark_exit_task ((<[r1 := mark_exit_task (store σ r1)]> (store σ)) r2)]>
          (<[r1 := mark_exit_task (store σ r1)]> (store σ))) r) =
    if decide (r = r2) then true else if decide (r = r1) then true
    else is_exit_task (store σ r)).
  { intros r. destruct (decide (r = r2)) as [->|N2].
    - rewrite fn_lookup_insert. reflexivity.
    - rewrite fn_lookup_insert_ne by congruence.
      destruct (decide (r = r1)) as [->|N1].
      + rewrite fn_lookup_insert. reflexivity.
      + rewrite fn_lookup_insert_ne by congruence. reflexivity. }
  assert (Hname : forall r,
    task_name
      ((<[r2 := mark_exit_task ((<[r1 := mark_exit_task (store σ r1)]> (store σ)) r2)]>
          (<[r1 := mark_exit_task (store σ r1)]> (store σ))) r) =
    task_name (store σ r)).
  { intros r. destruct (decide (r = r2)) as [->|N2].
    - rewrite fn_lookup_insert. cbn [task_name mark_exit_task].
      destruct (decide (r2 = r1)) as [->|N1].
      + rewrite fn_lookup_insert. reflexivity.
      + rewrite fn_lookup_insert_ne by congruence. reflexivity.
    - rewrite fn_lookup_insert_ne by congruence.
      destruct (decide (r = r1)) as [->|N1].
      + rewrite fn_lookup_insert. reflexivity.
      + rewrite fn_lookup_insert_ne by congruence. reflexivity. }
  split; [|split; [|split; [|split; [|split]]]].
  - f_equal. destruct (decide (r2 = r1)) as [->|N1].
    + rewrite fn_lookup_insert. reflexivity.
    + rewrite fn_lookup_insert_ne by congruence. reflexivity.
  - rewrite Hmark. repeat case_decide; congruence.
  - rewrite Hmark. repeat case_decide; congruence.
  - intros d. split; intros Hin; unfold main_chain in Hin;
      apply list_elem_of_filter in Hin as [Hm _]; rewrite Hmark in Hm;
      repeat case_decide; congruence.
  - exact Hname.
  - intros r N1 N2. rewrite !fn_lookup_insert_ne by congruence. reflexivity.
Qed.



Lemma find_by_name (ps ps' : list HeraParameter) n :
  map p_name ps = map p_name ps' ->
  is_Some (find (fun p => bool_decide (p_name p = n)) ps) <->
  is_Some (find (fun p => bool_decide (p_name p = n)) ps').
Proof.
  revert ps'. induction ps as [|p ps IH]; intros [|p' ps'] Hm; try discriminate Hm.
  - reflexivity.
  - cbn [map] in Hm. injection Hm as Hp Hm. cbn [find]. rewrite Hp.
    destruct (bool_decide (p_name p' = n)); [split; eauto|apply IH; exact Hm].
Qed.

(** X12. [get_parameter] looks at the names of the stored parameters
    only: two Workflows whose parameters bear the same names give the
    same answer, whatever values the parameters hold; and the [KeyError]
    it raises is the same for every name, its text not naming the
    parameter asked for. *)
Theorem get_parameter_reads_names (w w' : Workflow) (n n' : pystr) :
  ((map p_name <$> parameters w) = (map p_name <$> parameters w') ->
   get_parameter w n = get_parameter w' n) /\
  (forall e e',
     get_parameter w n = Raise e -> get_parameter w' n' = Raise e' -> e = e') /\
  (parameters w = None \/ parameters w = Some [] ->
   exists msg, get_parameter w n = Raise (KeyError msg)).
Proof.
  split; [|split].
  - intros Hm. unfold get_parameter.
    destruct (parameters w) as [ps|], (parameters w') as [ps'|];
      try discriminate Hm; [|reflexivity].
    injection Hm as Hm. pose proof (find_by_name ps ps' n Hm) as Hf.
    destruct (find _ ps) as [p|], (find _ ps') as [p'|]; try reflexivity.
    + destruct Hf as [Hf _]. destruct (Hf ltac:(eauto)) as [? [=]].
    + destruct Hf as [_ Hf]. destruct (Hf ltac:(eauto)) as [? [=]].
  - unfold get_parameter. intros e e' H H'.
    destruct (parameters w) as [ps|]; [destruct (find _ ps)|];
      destruct (parameters w') as [ps'|]; try destruct (find _ ps');
      congruence.
  - unfold get_parameter. intros [->| ->]; eauto.
Qed.

(** X13. [__init__] fails in two cases only: when the name is rejected,
    with the validator's exception, and, the name accepted, when the
    service given is [None] or falsy and the constructor of a new service
    raises, with the constructor's exception.  A truthy service is taken
    as given, without a constructor call.  When [__init__] returns, the
    Workflow bears the validated name and that service, is outside any
    scope, has no exit handler and no tasks, and, given a DAG, can be
    created at once, without a [with] block. *)
Theorem init_then_create
    n svc par san lab ann sc ips ref ttl gc ha ns aff dg prm tol (σ : World) :
  (forall e, validate_name n = Raise e ->
     __init__ n svc par san lab ann sc ips ref ttl gc ha ns aff dg prm tol = Raise e) /\
  (forall n' e, validate_name n = Ok n' -> service_or_new svc = Raise e ->
     __init__ n svc par san lab ann sc ips ref ttl gc ha ns aff dg prm tol = Raise e) /\
  (forall s, svc = Some s -> WorkflowService_bool s = true -> service_or_new svc = Ok s) /\
  (svc = None \/ (exists s, svc = Some s /\ WorkflowService_bool s = false) ->
   service_or_new svc = WorkflowService_new) /\
  (forall n' s, validate_name n = Ok n' -> service_or_new svc = Ok s ->
     exists w,
       __init__ n svc par san lab ann sc ips ref ttl gc ha ns aff dg prm tol = Ok w /\
       name w = n' /\ service w = s /\
       in_context w = false /\ exit_task w = None /\ tasks w = [] /\ dag w = dg /\
       (is_Some dg ->
        forall m, build w (store σ) = Ok m ->
          create_workflow (service w) m = Ok tt ->
          create w σ =
            (Ok ReturnsSelf, w, set_submitted (submitted σ ++ [(service w, m)]) σ))).
Proof.
  split; [|split; [|split; [|split]]].
  - intros e He. unfold __init__, mbind, result_bind. rewrite He. reflexivity.
  - intros n' e Hn Hs. unfold __init__, mbind, result_bind. rewrite Hn. cbn [rbind].
    rewrite Hs. reflexivity.
  - intros s -> Hb. unfold service_or_new. rewrite Hb. reflexivity.
  - intros [->|(s & -> & Hb)]; unfold service_or_new; [|rewrite Hb]; reflexivity.
  - intros n' s Hn Hs. unfold __init__, mbind, result_bind. rewrite Hn. cbn [rbind].
    rewrite Hs. cbn [rbind].
    eexists. split; [reflexivity|]. repeat (split; [reflexivity|]).
    intros [d ->] m Hm Hc. unfold create. cbn [dag in_context]. cbn [service] in Hc.
    rewrite Hm. cbn [service]. rewrite Hc. reflexivity.
Qed.

End LifeCycle.

(** ** What [build] makes of a value *)

Section EncodedText.
Import Json.
Local Open Scope N_scope.

Lemma printable_app s t : printable (s ++ t) = printable s && printable t.
Proof. apply forallb_app. Qed.

Lemma hex_digit_printable d : d < 16 -> printable [hex_digit d] = true.
Proof.
  intros H.
  assert (Hd : d = 0 \/ d = 1 \/ d = 2 \/ d = 3 \/ d = 4 \/ d = 5 \/ d = 6 \/ d = 7 \/
               d = 8 \/ d = 9 \/ d = 10 \/ d = 11 \/ d = 12 \/ d = 13 \/ d = 14 \/ d = 15)
    by lia.
  repeat destruct Hd as [->|Hd]; try subst d; reflexivity.
Qed.

Lemma u_escape_printable n : printable (u_escape n) = true.
Proof.
  unfold u_escape, hex4.
  change ([92; 117] ++ ?l) with ([92; 117] ++ l).
  rewrite printable_app.
  change (printable [92; 117]) with true. cbn [andb].
  change [hex_digit ?a; hex_digit ?b; hex_digit ?c; hex_digit ?d]
    with ([hex_digit a] ++ [hex_digit b] ++ [hex_digit c] ++ [hex_digit d]).
  rewrite !printable_app.
  rewrite !hex_digit_printable by (apply N.mod_lt; discriminate). reflexivity.
Qed.

Lemma escape_char_printable c : printable (escape_char c) = true.
Proof.
  unfold escape_char.
  repeat (destruct (_ =? _); [reflexivity|]).
  destruct ((32 <=? c) && (c <=? 126)) eqn:Hp.
  - cbn [printable forallb]. rewrite Hp. reflexivity.
  - destruct (c <? 65536).
    + apply u_escape_printable.
    + rewrite printable_app, !u_escape_printable. reflexivity.
Qed.

Lemma encode_basestring_ascii_printable s :
  printable (encode_basestring_ascii s) = true.
Proof.
  unfold encode_basestring_ascii. rewrite !printable_app.
  change (printable [34]) with true. rewrite andb_true_r. cbn [andb].
  induction s as [|c s IH]; [reflexivity|].
  cbn [flat_map]. rewrite printable_app, escape_char_printable, IH. reflexivity.
Qed.

Lemma uint_chars_printable u : printable (uint_chars u) = true.
Proof.
  induction u; cbn [uint_chars]; try reflexivity;
    change (?c :: ?l) with ([c] ++ l); rewrite printable_app, IHu; reflexivity.
Qed.

Lemma int_repr_printable z : printable (int_repr z) = true.
Proof.
  unfold int_repr. rewrite printable_app, uint_chars_printable.
  destruct (z <? 0)%Z; reflexivity.
Qed.

Lemma join_printable sep parts :
  printable sep = true ->
  Forall (fun p => printable p = true) parts ->
  printable (join sep parts) = true.
Proof.
  intros Hsep. induction 1 as [|p parts Hp Hrest IH]; [reflexivity|].
  destruct parts as [|q parts]; [exact Hp|].
  change (join sep (p :: q :: parts)) with (p ++ sep ++ join sep (q :: parts)).
  rewrite !printable_app, Hp, Hsep, IH. reflexivity.
Qed.

Lemma traverse_Forall {A B} (f : A -> result B) (P : B -> Prop) l chunks :
  Forall (fun x => forall y, f x = Ok y -> P y) l ->
  traverse f l = Ok chunks ->
  Forall P chunks.
Proof.
  intros HF. revert chunks. induction HF as [|x l Hx _ IH]; cbn [traverse].
  - intros chunks [= <-]. constructor.
  - intros chunks H. destruct (f x) as [y|]; [|discriminate].
    destruct (traverse f l) as [ys|]; [|discriminate].
    injection H as <-. constructor; auto.
Qed.

Lemma Ok_inj {A} (a b : A) : Ok a = Ok b -> a = b.
Proof. congruence. Qed.

(** Whatever [json.dumps] returns is printable ASCII. *)
Lemma encode_printable v : forall s, encode v = Ok s -> printable s = true.
Proof.
  induction v as [ | [] | z | s0 | l IH | l IH | items IH | l IH | b]
    using PyVal_induction; cbn [encode]; intros s H; try discriminate H;
    try (injection H as <-; first [ reflexivity
                                  | apply int_repr_printable
                                  | apply encode_basestring_ascii_printable ]).
  - destruct (traverse encode l) as [chunks|] eqn:Ht; [|discriminate].
    apply Ok_inj in H. subst s. rewrite !printable_app.
    rewrite join_printable; [reflexivity|reflexivity|].
    eapply traverse_Forall; [exact IH|exact Ht].
  - destruct (traverse encode l) as [chunks|] eqn:Ht; [|discriminate].
    apply Ok_inj in H. subst s. rewrite !printable_app.
    rewrite join_printable; [reflexivity|reflexivity|].
    eapply traverse_Forall; [exact IH|exact Ht].
  - match type of H with
    | match traverse ?f items with _ => _ end = _ =>
        destruct (traverse f items) as [chunks|] eqn:Ht; [|discriminate]
    end.
    apply Ok_inj in H. subst s. rewrite !printable_app.
    rewrite join_printable; [reflexivity|reflexivity|].
    eapply traverse_Forall; [|exact Ht].
    eapply Forall_impl; [|exact IH]. intros [k x] [_ Hx] y Hy. cbn [fst snd] in *.
    destruct (key_string k) as [ks|]; [|discriminate].
    destruct (encode x) as [xs|] eqn:Hxs; [|discriminate].
    apply Ok_inj in Hy. subst y.
    rewrite !printable_app, encode_basestring_ascii_printable, (Hx xs eq_refl).
    reflexivity.
Qed.

End EncodedText.

Section BuiltVariables.
Import Env.

Lemma build_of_non_string (e : EnvSpec.t) :
  EnvSpec.value_from_input e = None ->
  is_str (EnvSpec.value e) = false ->
  EnvSpec.build e =
    rbind (Json.dumps (EnvSpec.value e))
      (fun text => Ok {| ev_name := EnvSpec.name e; ev_value := Some text;
                         ev_value_from := None |}).
Proof.
  intros Hi Hs. unfold EnvSpec.build. rewrite Hi.
  destruct (EnvSpec.value e); try discriminate Hs; reflexivity.
Qed.

(** X14. A value that is not a string is built into printable ASCII
    text, whatever characters the strings inside it hold: no control
    character, no character above the tilde. *)
Theorem built_text_is_printable_ascii (e : EnvSpec.t) (ev : EnvVar) :
  EnvSpec.value_from_input e = None ->
  is_str (EnvSpec.value e) = false ->
  EnvSpec.build e = Ok ev ->
  exists text, ev_value ev = Some text /\ printable text = true.
Proof.
  intros Hi Hs Hb. rewrite (build_of_non_string e Hi Hs) in Hb.
  destruct (Json.dumps (EnvSpec.value e)) as [text|] eqn:Hd; [|discriminate Hb].
  cbn [rbind] in Hb. apply Ok_inj in Hb. subst ev.
  exists text. split; [reflexivity|]. eapply encode_printable; exact Hd.
Qed.

(** X15. Which values build the same variable. Two values of JSON's data
    model that are not strings build different variables unless they are
    equal; but a value and the string of its JSON text build the same
    variable, and so do a tuple and the list of its items. *)
Theorem built_variable_collisions (e e' : EnvSpec.t) :
  (EnvSpec.value_from_input e = None -> EnvSpec.value_from_input e' = None ->
   is_str (EnvSpec.value e) = false -> is_str (EnvSpec.value e') = false ->
   json_native (EnvSpec.value e) = true -> json_native (EnvSpec.value e') = true ->
   EnvSpec.build e = EnvSpec.build e' ->
   EnvSpec.name e = EnvSpec.name e' /\ EnvSpec.value e = EnvSpec.value e') /\
  (forall text,
     is_str (EnvSpec.value e) = false ->
     Json.dumps (EnvSpec.value e) = Ok text ->
     EnvSpec.build (with_value (PyStr text) e) = EnvSpec.build e) /\
  (forall l,
     EnvSpec.build (with_value (PyTuple l) e) = EnvSpec.build (with_value (PyList l) e)).
Proof.
  split; [|split].
  - intros Hi Hi' Hs Hs' Hn Hn' Hb.
    destruct (loads_dumps _ Hn) as (t & Hd & Hl).
    destruct (loads_dumps _ Hn') as (t' & Hd' & Hl').
    rewrite (build_of_non_string e Hi Hs), (build_of_non_string e' Hi' Hs') in Hb.
    rewrite Hd, Hd' in Hb. cbn [rbind] in Hb.
    apply Ok_inj in Hb. injection Hb as Hname Ht. subst t'.
    split; [exact Hname|]. congruence.
  - intros text Hs Hd. unfold EnvSpec.build, with_value.
    cbn [EnvSpec.value_from_input EnvSpec.value EnvSpec.name].
    destruct (EnvSpec.value_from_input e); [reflexivity|].
    destruct (EnvSpec.value e); try discriminate Hs; rewrite Hd; reflexivity.
  - intros l. reflexivity.
Qed.

(** X16. Every variable that is built carries either a literal value
    or exactly one source reference, never both and never neither:
    [EnvSpec] sets the value only, the three source variants set one
    reference each and no value.  The field variant builds exactly when
    its [api_version] is a string, and raises [ApiTypeError] when it is
    [None]. *)
Theorem built_variable_shape :
  (forall e ev, EnvSpec.build e = Ok ev ->
     is_Some (ev_value ev) /\ ev_value_from ev = None /\ source_count ev = 0%nat) /\
  (forall s, ev_value (SecretEnvSpec.build s) = None /\
             source_count (SecretEnvSpec.build s) = 1%nat) /\
  (forall s, ev_value (ConfigMapEnvSpec.build s) = None /\
             source_count (ConfigMapEnvSpec.build s) = 1%nat) /\
  (forall s ev, FieldEnvSpec.build s = Ok ev ->
     ev_value ev = None /\ source_count ev = 1%nat /\
     is_Some (FieldEnvSpec.api_version s)) /\
  (forall s, is_Some (FieldEnvSpec.api_version s) ->
     exists ev, FieldEnvSpec.build s = Ok ev) /\
  (forall s, FieldEnvSpec.api_version s = None ->
     FieldEnvSpec.build s = Raise ApiTypeError).
Proof.
  split; [|split; [|split; [|split; [|split]]]].
  - intros e ev H. unfold EnvSpec.build, mbind, result_bind in H.
    match type of H with rbind ?r _ = _ => destruct r; [|discriminate H] end.
    injection H as <-. repeat split. eauto.
  - repeat split.
  - repeat split.
  - intros s ev H. unfold FieldEnvSpec.build in H.
    destruct (FieldEnvSpec.api_version s) as [v|]; [|discriminate H].
    injection H as <-. repeat split. eauto.
  - intros s [v Hv]. unfold FieldEnvSpec.build. rewrite Hv. eexists. reflexivity.
  - intros s Hv. unfold FieldEnvSpec.build. rewrite Hv. reflexivity.
Qed.

Lemma key_string_written k : Json.key_string (written_key k) = Json.key_string k.
Proof.
  unfold written_key. destruct (Json.key_string k) eqn:Hk; [reflexivity|exact Hk].
Qed.

Lemma traverse_map_ext {A A' B} (f : A -> result B) (f' : A' -> result B)
    (g : A -> A') (l : list A) :
  (forall x, f' (g x) = f x) -> traverse f' (map g l) = traverse f l.
Proof.
  intros H. induction l as [|x l IH]; [reflexivity|].
  cbn [map traverse]. rewrite H, IH. reflexivity.
Qed.

(** X17. The keys of a dict are written as strings: when the strings
    that its keys are written as are pairwise different, a dict value
    builds the same variable, or fails the same way, as the dict in which
    every integer, boolean or [None] key is replaced by that string. *)
Theorem dict_keys_are_written_as_strings (e : EnvSpec.t) items :
  distinct_keys items = true ->
  distinct_keys (written_items items) = true ->
  with_written_keys items = written_items items /\
  EnvSpec.build (with_value (PyDict (with_written_keys items)) e) =
  EnvSpec.build (with_value (PyDict items) e) /\
  Json.dumps (PyDict (with_written_keys items)) = Json.dumps (PyDict items).
Proof.
  intros _ Hw.
  assert (Hk : with_written_keys items = written_items items)
    by (apply dict_of_pairs_distinct; exact Hw).
  assert (Hd : Json.dumps (PyDict (with_written_keys items)) = Json.dumps (PyDict items)).
  { rewrite Hk. unfold Json.dumps. cbn [Json.encode]. unfold written_items.
    erewrite traverse_map_ext; [reflexivity|].
    intros [k x]. cbn [fst snd]. rewrite key_string_written. reflexivity. }
  split; [exact Hk|]. split; [|exact Hd].
  unfold EnvSpec.build, with_value.
  cbn [EnvSpec.value_from_input EnvSpec.value EnvSpec.name]. rewrite Hd. reflexivity.
Qed.

(** Where two written keys are the same the two dicts build differently:
    [{2: 'a', '2': 'b'}] is written with both items, the dict of its
    written keys holds one. *)
Example colliding_written_keys :
  distinct_keys [(PyInt 2, PyStr (py "a")); (PyStr (py "2"), PyStr (py "b"))] = true /\
  Json.dumps (PyDict [(PyInt 2, PyStr (py "a")); (PyStr (py "2"), PyStr (py "b"))]) =
    Ok (dq "{'2': 'a', '2': 'b'}") /\
  Json.dumps (PyDict (with_written_keys
                        [(PyInt 2, PyStr (py "a")); (PyStr (py "2"), PyStr (py "b"))])) =
    Ok (dq "{'2': 'b'}").
Proof. repeat split. Qed.

End BuiltVariables.

(** ** The further properties on the sample workflows *)

Section FurtherRuns.
Import Wf.
#[local] Existing Instance Sample.externals.
#[local] Existing Instance Sample.collaborators.

Lemma built_spec_mirrors_fields_witness :
  exists s : model_object,
    _build_spec Configured.workflow Sample.tasks false = Ok s /\
    s !! "parallelism" = Some (AInt 2) /\
    s !! "ttl_strategy" = Some (AFragment (py "60")) /\
    s !! "arguments" = Some (AArguments [py "a"]) /\
    s !! "tolerations" = Some (AFragments []) /\
    s !! "affinity" = None /\
    s !! "on_exit" = None.
Proof.
  assert (H : exists s, _build_spec Configured.workflow Sample.tasks false = Ok s)
    by (eexists; reflexivity).
  destruct H as [s H]. exists s. split; [exact H|].
  destruct (built_spec_mirrors_fields Configured.workflow Sample.tasks false s H)
    as (H1 & H2 & _ & _ & _ & _ & _ & H8 & H9 & _ & H11 & H12).
  cbn in H2, H8, H9, H11.
  destruct H2 as (v2 & [= <-] & H2), H8 as (v8 & [= <-] & H8),
           H11 as (v11 & [= <-] & H11).
  repeat split; assumption.
Defined.

Lemma empty_collections_in_manifest_witness :
  exists m,
    build Configured.workflow Sample.tasks = Ok m /\
    spec m !! "tolerations" = Some (AFragments []) /\
    spec m !! "host_aliases" = Some (AFragments []) /\
    spec m !! "node_selector" = Some (ADict []) /\
    metadata m !! "labels" = None /\
    metadata m !! "annotations" = Some (ADict [(py "team", py "ml")]).
Proof.
  assert (H : exists m, build Configured.workflow Sample.tasks = Ok m)
    by (eexists; reflexivity).
  destruct H as [m H]. exists m. split; [exact H|].
  destruct (empty_collections_in_manifest Configured.workflow Sample.tasks m H)
    as (Ht & Hh & _ & Hn & _ & Hl & _).
  split; [apply Ht; reflexivity|]. split; [apply Hh; reflexivity|].
  split; [apply Hn; reflexivity|]. split; [apply Hl; reflexivity|].
  unfold build, mbind, result_bind in H.
  destruct (_build_spec Configured.workflow Sample.tasks false); [|discriminate H].
  injection H as <-. reflexivity.
Defined.

Lemma built_spec_dag_keys_witness :
  exists (s : model_object) d t1 vct pcvs,
    _build_spec Configured.workflow Sample.tasks true = Ok s /\
    dag Configured.workflow = Some d /\
    DAG_build_templates d Sample.tasks = Ok t1 /\
    DAG_build_volume_claim_templates d Sample.tasks = Ok vct /\
    DAG_build_persistent_volume_claims d Sample.tasks = Ok pcvs /\
    s !! "entrypoint" = None /\ s !! "templates" = Some (AFragments t1) /\
    s !! "volumes" = None /\ s !! "status" = None.
Proof.
  assert (H : exists s, _build_spec Configured.workflow Sample.tasks true = Ok s)
    by (eexists; reflexivity).
  destruct H as [s H].
  destruct (built_spec_dag_keys Configured.workflow Sample.tasks true s H)
    as (d & t1 & vct & pcvs & Hd & Ht1 & Hvct & Hpcvs & Htrue & _ & _ & Hvol & Hnone).
  exists s, d, t1, vct, pcvs. repeat (split; [assumption|]).
  destruct (Htrue eq_refl) as [He Ht].
  split; [exact He|]. split; [exact Ht|].
  assert (Hp : pcvs = []).
  { cbn in Hd. injection Hd as <-. cbn in Hpcvs. injection Hpcvs as <-. reflexivity. }
  split; [rewrite Hvol, Hp; reflexivity|].
  apply Hnone. unfold spec_keys, optional_spec_keys. cbn [app].
  repeat (apply not_elem_of_cons; split; [discriminate|]). apply not_elem_of_nil.
Defined.

Lemma scope_then_create_witness :
  exists m w1 w2,
    __enter__ Sample.plain Sample.world =
      (Ok ReturnsSelf, w1, set_context [DAG_init (py "w")] Sample.world) /\
    __exit__ w1 (set_context [DAG_init (py "w")] Sample.world) =
      (Ok ReturnsNone, w2, set_context [] Sample.world) /\
    in_context w2 = false /\ dag w2 = Some (DAG_init (py "w")) /\
    create w2 (set_context [] Sample.world) =
      (Ok ReturnsSelf, w2,
       set_submitted ([] ++ [(py "https://localhost:2746", m)])
         (set_context [] Sample.world)).
Proof.
  eexists.
  apply (scope_then_create Sample.plain Sample.world [DAG_init (py "w")] []);
    reflexivity.
Defined.

Lemma scope_is_single_use_witness :
  exists w2,
    in_context w2 = false /\
    dag w2 = Some (DAG_init (py "w")) /\
    exists e,
      __enter__ w2 Sample.world = (Raise e, set_in_context true w2, Sample.world) /\
      InvalidStateError e /\
      in_context (set_in_context true w2) = true.
Proof.
  eexists.
  eapply (scope_is_single_use Sample.plain Sample.world Sample.world); reflexivity.
Defined.

Lemma create_effects_witness :
  exists r w' σ',
    create Sample.with_dag Sample.world = (r, w', σ') /\
    w' = Sample.with_dag /\ store σ' = Sample.tasks /\ context σ' = [] /\
    r = Ok ReturnsSelf /\
    exists m, submitted σ' = [(py "https://localhost:2746", m)].
Proof.
  assert (H : exists r w' σ', create Sample.with_dag Sample.world = (r, w', σ') /\
                              r = Ok ReturnsSelf)
    by (eexists _, _, _; split; reflexivity).
  destruct H as (r & w' & σ' & H & Hr). exists r, w', σ'. split; [exact H|].
  destruct (create_effects Sample.with_dag Sample.world r w' σ' H)
    as (Hw & Hst & Hc & Hok & _).
  repeat (split; [assumption|]).
  destruct (Hok Hr) as (m & _ & _ & _ & _ & Hsub). exists m. exact Hsub.
Defined.

Lemma no_dag_no_manifest_witness :
  build Sample.plain (store Sample.world) = Raise AssertionError /\
  _build_spec Sample.plain (store Sample.world) true = Raise AssertionError /\
  create Sample.plain Sample.world = (Raise AssertionError, Sample.plain, Sample.world) /\
  create (set_in_context true Sample.plain) Sample.world =
    (Raise AssertionError, set_in_context true Sample.plain, Sample.world) /\
  ~ InvalidStateError AssertionError.
Proof. apply (no_dag_no_manifest Sample.plain Sample.world true). reflexivity. Defined.


Lemma get_parameter_reads_names_witness :
  get_parameter Sample.with_parameters (py "a") =
    get_parameter Configured.with_valued_parameters (py "a") /\
  (exists msg, get_parameter Sample.plain (py "a") = Raise (KeyError msg)) /\
  (forall e e',
     get_parameter Sample.with_parameters (py "c") = Raise e ->
     get_parameter Sample.plain (py "zz") = Raise e' -> e = e').
Proof.
  split; [|split].
  - apply (get_parameter_reads_names Sample.with_parameters
             Configured.with_valued_parameters (py "a") (py "a")).
    reflexivity.
  - apply (get_parameter_reads_names Sample.plain Sample.plain (py "a") (py "a")).
    left. reflexivity.
  - apply (get_parameter_reads_names Sample.with_parameters Sample.plain
             (py "c") (py "zz")).
Defined.

(** [Workflow("w", dag=...)] takes a new service from the constructor;
    where the constructor raises, as it does without a configured host,
    [__init__] raises with it. *)
Lemma init_then_create_witness :
  (exists w,
     __init__ (C := Sample.collaborators)
              (py "w") None None None None None None None None None None None None
              None (Some Sample.two_tasks) None None = Ok w /\
     name w = py "w" /\ service w = py "https://localhost:2746" /\
     in_context w = false /\ exit_task w = None /\ tasks w = [] /\
     dag w = Some Sample.two_tasks /\
     exists m,
       create w Sample.world =
         (Ok ReturnsSelf, w, set_submitted ([] ++ [(service w, m)]) Sample.world)) /\
  __init__ (C := Configured.unconfigured)
           (py "w") None None None None None None None None None None None None
           None (Some Sample.two_tasks) None None = Raise AssertionError.
Proof.
  split.
  - assert (H : validate_name (py "w") = Ok (py "w")) by reflexivity.
    assert (Hs : service_or_new None = Ok (py "https://localhost:2746")) by reflexivity.
    destruct (init_then_create (C := Sample.collaborators)
                (py "w") None None None None None None None None
                None None None None None (Some Sample.two_tasks) None None
                Sample.world) as (_ & _ & _ & _ & Hok).
    destruct (Hok (py "w") _ H Hs)
      as (w & Hinit & Hn & Hsvc & Hin & He & Ht & Hd & Hcreate).
    exists w. repeat (split; [assumption|]).
    injection Hinit as <-.
    eexists. apply Hcreate; [eexists; reflexivity | reflexivity | reflexivity].
  - assert (H : validate_name (Collaborators := Configured.unconfigured) (py "w") = Ok (py "w"))
      by reflexivity.
    assert (Hs : service_or_new (C := Configured.unconfigured) None =
                 Raise AssertionError) by reflexivity.
    destruct (init_then_create (C := Configured.unconfigured)
                (py "w") None None None None None None None None
                None None None None None (Some Sample.two_tasks) None None
                Sample.world) as (_ & Hfail & _).
    exact (Hfail (py "w") AssertionError H Hs).
Defined.

End FurtherRuns.

Section FurtherEnvRuns.
Import Env.

Lemma built_text_is_printable_ascii_witness :
  exists text,
    EnvSpec.build Configured.limits =
      Ok {| ev_name := py "LIMITS"; ev_value := Some text; ev_value_from := None |} /\
    printable text = true.
Proof.
  assert (H : exists ev, EnvSpec.build Configured.limits = Ok ev)
    by (eexists; reflexivity).
  destruct H as [ev H].
  destruct (built_text_is_printable_ascii Configured.limits ev eq_refl eq_refl H)
    as (text & Hv & Hp).
  exists text. split; [|exact Hp].
  rewrite H. cbn in H. injection H as <-. cbn in Hv. injection Hv as <-. reflexivity.
Defined.

Lemma built_variable_collisions_witness :
  (EnvSpec.build Configured.pair = EnvSpec.build Configured.pair ->
   EnvSpec.name Configured.pair = py "LIMITS" /\
   EnvSpec.value Configured.pair = PyList [PyInt 1; PyInt 2]) /\
  EnvSpec.build (with_value (PyStr (py "[1, 2]")) Configured.pair) =
    EnvSpec.build Configured.pair /\
  EnvSpec.build (with_value (PyTuple [PyInt 1; PyInt 2]) Configured.pair) =
    EnvSpec.build (with_value (PyList [PyInt 1; PyInt 2]) Configured.pair).
Proof.
  split; [|split].
  - apply (built_variable_collisions Configured.pair Configured.pair); reflexivity.
  - apply (built_variable_collisions Configured.pair Configured.pair); reflexivity.
  - apply (built_variable_collisions Configured.pair Configured.pair).
Defined.

Lemma built_variable_shape_witness :
  (exists ev,
     EnvSpec.build Configured.pair = Ok ev /\
     is_Some (ev_value ev) /\ ev_value_from ev = None /\ source_count ev = 0%nat) /\
  (exists ev,
     FieldEnvSpec.build Sample.pod_name = Ok ev /\
     ev_value ev = None /\ source_count ev = 1%nat) /\
  FieldEnvSpec.build Sample.pod_name_unversioned = Raise ApiTypeError.
Proof.
  destruct built_variable_shape as (Hlit & _ & _ & Hfield & _ & Hnone).
  split; [|split].
  - eexists. split; [reflexivity|]. apply (Hlit Configured.pair). reflexivity.
  - eexists. split; [reflexivity|].
    destruct (Hfield Sample.pod_name _ eq_refl) as (Hv & Hc & _). split; assumption.
  - apply Hnone. reflexivity.
Defined.

(** [{1: 'a', None: 'b'}] and [{'1': 'a', 'null': 'b'}] *)
Lemma dict_keys_are_written_as_strings_witness :
  with_written_keys [(PyInt 1, PyStr (py "a")); (PyNone, PyStr (py "b"))] =
    [(PyStr (py "1"), PyStr (py "a")); (PyStr (py "null"), PyStr (py "b"))] /\
  EnvSpec.build
    (with_value (PyDict [(PyStr (py "1"), PyStr (py "a"));
                         (PyStr (py "null"), PyStr (py "b"))]) Configured.pair) =
  EnvSpec.build
    (with_value (PyDict [(PyInt 1, PyStr (py "a")); (PyNone, PyStr (py "b"))])
       Configured.pair).
Proof.
  destruct (dict_keys_are_written_as_strings Configured.pair
              [(PyInt 1, PyStr (py "a")); (PyNone, PyStr (py "b"))]
              eq_refl eq_refl) as (Hk & Hb & _).
  split; [exact Hk|exact Hb].
Defined.

End FurtherEnvRuns.
